(** * Databricks MCP server: the three tools of [main.py]

    A shallow embedding of [main.py] (connection factories and the tools
    [get_table_schema], [execute_sql_query], [list_tables]) together with the
    properties stated about them.

    The Databricks SQL client ([databricks.sql]) and the workspace SDK are
    external: they are taken as a parameter, an [Engine] of oracles that
    answer each client call from the transcript of the calls made so far.
    The tools run in a state-and-exception monad over that transcript, so
    that "no engine contact", "what was passed to [sql.connect]" and "was
    the connection closed" are statements about the transcript. *)

From Stdlib Require Import String Ascii List ZArith Bool Lia.
Import ListNotations.
Open Scope string_scope.

Set Warnings "-register-all".

(** ** Python values *)

(** The values that travel through the tools: cells of engine rows and the
    contents of the returned dictionaries.  Dictionaries keep insertion
    order, as Python's do, and their keys are strings.  [VBytes] stands for
    [bytes] and [bytearray] cells (binary columns), which behave alike
    here. *)
Inductive PyVal : Type :=
| VNone
| VBool (b : bool)
| VInt (n : Z)
| VStr (s : string)
| VBytes (b : string)
| VList (l : list PyVal)
| VDict (d : list (string * PyVal)).

Definition Dict := list (string * PyVal).

(** A result row is a tuple of cells. *)
Definition Row := list PyVal.

(** [bool(v)]. *)
Definition truthy (v : PyVal) : bool :=
  match v with
  | VNone => false
  | VBool b => b
  | VInt n => negb (n =? 0)%Z
  | VStr s => negb (s =? "")
  | VBytes b => negb (b =? "")
  | VList l => match l with [] => false | _ => true end
  | VDict d => match d with [] => false | _ => true end
  end.

(** [type(v).__name__]. *)
Definition type_name (v : PyVal) : string :=
  match v with
  | VNone => "NoneType"
  | VBool _ => "bool"
  | VInt _ => "int"
  | VStr _ => "str"
  | VBytes _ => "bytes"
  | VList _ => "list"
  | VDict _ => "dict"
  end.

(** A [str | None] parameter or environment variable. *)
Definition of_opt (o : option string) : PyVal :=
  match o with Some s => VStr s | None => VNone end.

Definition truthy_opt (o : option string) : bool := truthy (of_opt o).

(** [a or b] on [str | None] operands. *)
Definition py_or (a b : option string) : option string :=
  if truthy_opt a then a else b.

(** [f"{o}"]. *)
Definition fmt_opt (o : option string) : string :=
  match o with Some s => s | None => "None" end.

(** ** Dictionaries *)

Fixpoint dict_get (k : string) (d : Dict) : option PyVal :=
  match d with
  | [] => None
  | (k', v) :: rest => if k' =? k then Some v else dict_get k rest
  end.

(** [d[k] = v]: overwrite in place when the key is there, append otherwise. *)
Fixpoint dict_set (k : string) (v : PyVal) (d : Dict) : Dict :=
  match d with
  | [] => [(k, v)]
  | (k', v') :: rest =>
      if k' =? k then (k', v) :: rest else (k', v') :: dict_set k v rest
  end.

Definition keys (d : Dict) : list string := map fst d.

(** ** Exceptions *)

(** The classes of the exceptions met here.  The first five derive from
    [Exception]: the built-in ones the tool code itself can raise, and the
    client's (PEP 249 makes [Error] a subclass of [Exception]).
    [KeyboardInterrupt] and [SystemExit] derive from [BaseException] only. *)
Inductive ExnClass : Type :=
| ValueError
| IndexError
| AttributeError
| TypeError
| ClientError
| KeyboardInterrupt
| SystemExit.

(** [isinstance(e, Exception)], by class. *)
Definition is_Exception (c : ExnClass) : bool :=
  match c with
  | KeyboardInterrupt | SystemExit => false
  | _ => true
  end.

(** An exception: its class, its message, and what [str(e)] raises when the
    object cannot be rendered ([None] for the ordinary exception, whose
    [str] is its message). *)
Inductive Exn : Type :=
| Fault (cls : ExnClass) (msg : string) (str_raises : option Exn).

(** The ordinary exception [cls(msg)]. *)
Definition mkExn (cls : ExnClass) (msg : string) : Exn := Fault cls msg None.

Definition exn_class (e : Exn) : ExnClass :=
  match e with Fault cls _ _ => cls end.

Definition exn_msg (e : Exn) : string :=
  match e with Fault _ msg _ => msg end.

Definition str_raises (e : Exn) : option Exn :=
  match e with Fault _ _ r => r end.

(** Pure code that may raise. *)
Definition Res (A : Type) : Type := (Exn + A)%type.

(** [str(e)]. *)
Definition str_exn (e : Exn) : Res string :=
  match str_raises e with
  | None => inr (exn_msg e)
  | Some e' => inl e'
  end.

(** [except Exception] catches [e], and [str(e)] gives its message. *)
Definition reportable (e : Exn) : bool :=
  is_Exception (exn_class e) &&
  match str_raises e with None => true | Some _ => false end.

Definition rbind {A B} (r : Res A) (k : A -> Res B) : Res B :=
  match r with inl e => inl e | inr a => k a end.

(** [t[i]] on a tuple, for the non-negative constant indices of the code. *)
Definition getitem (t : Row) (i : nat) : Res PyVal :=
  match nth_error t i with
  | Some v => inr v
  | None => inl (mkExn IndexError "tuple index out of range")
  end.

(** [v.startswith(p)] with a [str] argument [p]: strings answer, [bytes]
    refuse a [str] argument, the other values do not have the method. *)
Definition startswith (v : PyVal) (p : string) : Res bool :=
  match v with
  | VStr s => inr (prefix p s)
  | VBytes _ =>
      inl (mkExn TypeError
             "startswith first arg must be bytes or a tuple of bytes, not str")
  | _ => inl (mkExn AttributeError
                ("'" ++ type_name v ++ "' object has no attribute 'startswith'"))
  end.

(** ** [str.replace] *)

(** Left-to-right scan for non-overlapping occurrences of [old]: at an
    occurrence emit [new] and skip over it ([skip] counts the characters of
    the occurrence still to pass). *)
Fixpoint replace_from (old new : string) (skip : nat) (s : string) : string :=
  match s with
  | EmptyString => EmptyString
  | String c rest =>
      match skip with
      | S k => replace_from old new k rest
      | O =>
          if prefix old s
          then new ++ replace_from old new (String.length old - 1) rest
          else String c (replace_from old new 0 rest)
      end
  end.

(** With an empty [old], Python puts [new] around every character. *)
Fixpoint replace_empty (new s : string) : string :=
  match s with
  | EmptyString => new
  | String c rest => new ++ String c (replace_empty new rest)
  end.

Definition str_replace (s old new : string) : string :=
  if old =? "" then replace_empty new s else replace_from old new 0 s.

(** ** Configuration *)

(** The five module-level [os.getenv] reads. *)
Record Config : Type := mkConfig {
  DATABRICKS_HOST : option string;
  DATABRICKS_TOKEN : option string;
  DATABRICKS_HTTP_PATH : option string;
  DATABRICKS_CATALOG : option string;
  DATABRICKS_SCHEMA : option string
}.

(** [all([...])] over environment values. *)
Definition all_set (l : list (option string)) : bool := forallb truthy_opt l.

(** ** The external client *)

(** An entry of [cursor.description] (PEP 249: a 7-item sequence). *)
Record ColumnDesc : Type := mkColumnDesc {
  cd_name : string;
  cd_type_code : PyVal;
  cd_display_size : PyVal;
  cd_internal_size : PyVal;
  cd_precision : PyVal;
  cd_scale : PyVal;
  cd_null_ok : PyVal
}.

(** Calls made on the client. *)
Inductive Call : Type :=
| SqlConnect (server_hostname http_path access_token : string)
| ConnectionCursor
| CursorExecute (operation : string)
| CursorFetchall
| CursorFetchmany (size : Z)
| CursorClose
| ConnectionClose
| NewWorkspaceClient (host token : string).

(** What the client answered.  [Executed d] is a successful [execute] after
    which [cursor.description] reads [d]. *)
Inductive Reply : Type :=
| Raised (e : Exn)
| Done
| Executed (description : option (list ColumnDesc))
| Fetched (rows : list Row).

Definition Transcript := list (Call * Reply).

(** The client: each call is answered from the history. *)
Record Engine : Type := mkEngine {
  sql_connect : Transcript -> string -> string -> string -> Res unit;
  connection_cursor : Transcript -> Res unit;
  cursor_execute : Transcript -> string -> Res (option (list ColumnDesc));
  cursor_fetchall : Transcript -> Res (list Row);
  cursor_fetchmany : Transcript -> Z -> Res (list Row);
  cursor_close : Transcript -> Res unit;
  connection_close : Transcript -> Res unit;
  workspace_client : Transcript -> string -> string -> Res unit
}.

(** ** The monad of the tools *)

Definition M (A : Type) : Type := Transcript -> Transcript * Res A.

Definition ret {A} (a : A) : M A := fun t => (t, inr a).

Definition raise {A} (e : Exn) : M A := fun t => (t, inl e).

Definition bind {A B} (m : M A) (k : A -> M B) : M B :=
  fun t => match m t with
           | (t', inl e) => (t', inl e)
           | (t', inr a) => k a t'
           end.

(** [try: body / except Exception as e: handler e]: an exception that is
    not an [Exception] goes through, and so does one raised by the
    handler. *)
Definition try_except {A} (body : M A) (handler : Exn -> M A) : M A :=
  fun t => match body t with
           | (t', inl e) =>
               if is_Exception (exn_class e) then handler e t' else (t', inl e)
           | (t', inr a) => (t', inr a)
           end.

Definition lift {A} (r : Res A) : M A := fun t => (t, r).

(** A client call: ask the oracle, record call and answer. *)
Definition perform {A} (c : Call) (answer : Transcript -> Res A)
    (reply : A -> Reply) : M A :=
  fun t => match answer t with
           | inl e => ((t ++ [(c, Raised e)])%list, inl e)
           | inr a => ((t ++ [(c, reply a)])%list, inr a)
           end.

Declare Scope py_scope.
Delimit Scope py_scope with py.
Notation "x <- m ;; k" := (bind m (fun x => k))
  (at level 61, m at next level, right associativity) : py_scope.
Notation "m ;;; k" := (bind m (fun _ => k))
  (at level 61, right associativity) : py_scope.
Notation "x <~ r ;; k" := (rbind r (fun x => k))
  (at level 61, r at next level, right associativity) : py_scope.
Open Scope py_scope.

(** ** [main.py] *)

Section Tools.

Variable eng : Engine.
Variable cfg : Config.

Definition missing_connection_settings : string :=
  "Missing required environment variables: DATABRICKS_HOST, " ++
  "DATABRICKS_TOKEN, and DATABRICKS_HTTP_PATH must be set".

Definition missing_workspace_settings : string :=
  "Missing required environment variables: DATABRICKS_HOST and " ++
  "DATABRICKS_TOKEN must be set".

Definition missing_namespace : string :=
  "Catalog and schema must be provided either as parameters or via " ++
  "DATABRICKS_CATALOG and DATABRICKS_SCHEMA environment variables".

(** [get_databricks_connection()].  The inner [match] only unpacks the three
    values: past the guard none of them is [None]. *)
Definition get_databricks_connection : M unit :=
  if negb (all_set [DATABRICKS_HOST cfg; DATABRICKS_TOKEN cfg;
                    DATABRICKS_HTTP_PATH cfg])
  then raise (mkExn ValueError missing_connection_settings)
  else
    match DATABRICKS_HOST cfg, DATABRICKS_HTTP_PATH cfg, DATABRICKS_TOKEN cfg with
    | Some host, Some http_path, Some token =>
        let server_hostname := str_replace host "https://" "" in
        perform (SqlConnect server_hostname http_path token)
                (fun t => sql_connect eng t server_hostname http_path token)
                (fun _ => Done)
    | _, _, _ => raise (mkExn ValueError missing_connection_settings)
    end.

(** [get_workspace_client()]. *)
Definition get_workspace_client : M unit :=
  if negb (all_set [DATABRICKS_HOST cfg; DATABRICKS_TOKEN cfg])
  then raise (mkExn ValueError missing_workspace_settings)
  else
    match DATABRICKS_HOST cfg, DATABRICKS_TOKEN cfg with
    | Some host, Some token =>
        perform (NewWorkspaceClient host token)
                (fun t => workspace_client eng t host token)
                (fun _ => Done)
    | _, _ => raise (mkExn ValueError missing_workspace_settings)
    end.

Definition do_cursor : M unit :=
  perform ConnectionCursor (connection_cursor eng) (fun _ => Done).

Definition do_execute (query : string) : M (option (list ColumnDesc)) :=
  perform (CursorExecute query) (fun t => cursor_execute eng t query) Executed.

Definition do_fetchall : M (list Row) :=
  perform CursorFetchall (cursor_fetchall eng) Fetched.

Definition do_fetchmany (size : Z) : M (list Row) :=
  perform (CursorFetchmany size) (fun t => cursor_fetchmany eng t size) Fetched.

Definition do_cursor_close : M unit :=
  perform CursorClose (cursor_close eng) (fun _ => Done).

Definition do_connection_close : M unit :=
  perform ConnectionClose (connection_close eng) (fun _ => Done).

(** The body of the [for row in results] loop of [get_table_schema]:
    [None] when the row is skipped, the column dictionary otherwise. *)
Definition schema_row (row : Row) : Res (option PyVal) :=
  name <~ getitem row 0 ;;
  if truthy name then
    hash <~ startswith name "#" ;;
    if negb hash then
      name <~ getitem row 0 ;;
      type <~ getitem row 1 ;;
      comment <~ (if (2 <? List.length row)%nat then getitem row 2
                  else inr VNone) ;;
      inr (Some (VDict [("name", name); ("type", type); ("comment", comment)]))
    else inr None
  else inr None.

(** The loop, with [columns] the list built so far. *)
Fixpoint schema_loop (results : list Row) (columns : list PyVal)
    : Res (list PyVal) :=
  match results with
  | [] => inr columns
  | row :: rest =>
      c <~ schema_row row ;;
      match c with
      | Some col => schema_loop rest (columns ++ [col])
      | None => schema_loop rest columns
      end
  end.

(** The [try] block of [get_table_schema], entered with [catalog] and
    [schema] already resolved. *)
Definition schema_try (table : string) (catalog schema : option string)
    : M Dict :=
  get_databricks_connection ;;;
  do_cursor ;;;
  let full_table_name :=
    fmt_opt catalog ++ "." ++ fmt_opt schema ++ "." ++ table in
  let query := "DESCRIBE TABLE " ++ full_table_name in
  do_execute query ;;;
  results <- do_fetchall ;;
  columns <- lift (schema_loop results []) ;;
  do_cursor_close ;;;
  do_connection_close ;;;
  ret [("catalog", of_opt catalog);
       ("schema", of_opt schema);
       ("table", VStr table);
       ("full_name", VStr full_table_name);
       ("columns", VList columns)].

(** [get_table_schema(table, catalog, schema)]. *)
Definition get_table_schema (table : string) (catalog schema : option string)
    : M Dict :=
  let catalog := py_or catalog (DATABRICKS_CATALOG cfg) in
  let schema := py_or schema (DATABRICKS_SCHEMA cfg) in
  if negb (truthy_opt catalog) || negb (truthy_opt schema) then
    ret [("error", VStr missing_namespace); ("table", VStr table)]
  else
    try_except
      (schema_try table catalog schema)
      (fun e =>
         error <- lift (str_exn e) ;;
         ret [("error", VStr error);
              ("catalog", of_opt catalog);
              ("schema", of_opt schema);
              ("table", VStr table)]).

(** [for i, col in enumerate(columns): row_dict[col] = row[i]], from
    position [i] on. *)
Fixpoint fill_row (row : Row) (i : nat) (columns : list string)
    (row_dict : Dict) : Res Dict :=
  match columns with
  | [] => inr row_dict
  | col :: rest =>
      v <~ getitem row i ;;
      fill_row row (S i) rest (dict_set col v row_dict)
  end.

(** [for row in results], with [rows] the list built so far. *)
Fixpoint query_loop (columns : list string) (results : list Row)
    (rows : list PyVal) : Res (list PyVal) :=
  match results with
  | [] => inr rows
  | row :: rest =>
      row_dict <~ fill_row row 0 columns [] ;;
      query_loop columns rest (rows ++ [VDict row_dict])
  end.

(** [[desc[0] for desc in cursor.description] if cursor.description else []]. *)
Definition column_names (description : option (list ColumnDesc)) : list string :=
  match description with
  | Some (d :: ds) => map cd_name (d :: ds)
  | _ => []
  end.

(** The [try] block of [execute_sql_query]. *)
Definition query_try (query : string) (max_rows : Z) : M Dict :=
  get_databricks_connection ;;;
  do_cursor ;;;
  description <- do_execute query ;;
  let columns := column_names description in
  results <- do_fetchmany max_rows ;;
  rows <- lift (query_loop columns results []) ;;
  do_cursor_close ;;;
  do_connection_close ;;;
  ret [("query", VStr query);
       ("columns", VList (map VStr columns));
       ("rows", VList rows);
       ("row_count", VInt (Z.of_nat (List.length rows)));
       ("truncated", VBool (Z.of_nat (List.length rows) >=? max_rows)%Z)].

(** [execute_sql_query(query, max_rows)]. *)
Definition execute_sql_query (query : string) (max_rows : Z) : M Dict :=
  try_except
    (query_try query max_rows)
    (fun e =>
       error <- lift (str_exn e) ;;
       ret [("error", VStr error); ("query", VStr query)]).

(** The body of the loop of [list_tables]. *)
Definition table_row (row : Row) : Res PyVal :=
  name <~ getitem row 1 ;;
  is_temporary <~ (if (2 <? List.length row)%nat then getitem row 2
                   else inr (VBool false)) ;;
  inr (VDict [("name", name); ("is_temporary", is_temporary)]).

Fixpoint tables_loop (results : list Row) (tables : list PyVal)
    : Res (list PyVal) :=
  match results with
  | [] => inr tables
  | row :: rest =>
      table_info <~ table_row row ;;
      tables_loop rest (tables ++ [table_info])
  end.

(** The [try] block of [list_tables], entered with [catalog] and [schema]
    already resolved. *)
Definition tables_try (catalog schema : option string) : M Dict :=
  get_databricks_connection ;;;
  do_cursor ;;;
  let query := "SHOW TABLES IN " ++ fmt_opt catalog ++ "." ++ fmt_opt schema in
  do_execute query ;;;
  results <- do_fetchall ;;
  tables <- lift (tables_loop results []) ;;
  do_cursor_close ;;;
  do_connection_close ;;;
  ret [("catalog", of_opt catalog);
       ("schema", of_opt schema);
       ("tables", VList tables);
       ("table_count", VInt (Z.of_nat (List.length tables)));
       ("usage_hint",
        VStr ("To query these tables, use the full name: " ++
              fmt_opt catalog ++ "." ++ fmt_opt schema ++ ".<table_name>"))].

(** [list_tables(catalog, schema)]. *)
Definition list_tables (catalog schema : option string) : M Dict :=
  let catalog := py_or catalog (DATABRICKS_CATALOG cfg) in
  let schema := py_or schema (DATABRICKS_SCHEMA cfg) in
  if negb (truthy_opt catalog) || negb (truthy_opt schema) then
    ret [("error", VStr missing_namespace)]
  else
    try_except
      (tables_try catalog schema)
      (fun e =>
         error <- lift (str_exn e) ;;
         ret [("error", VStr error);
              ("catalog", of_opt catalog);
              ("schema", of_opt schema)]).

End Tools.

(** ** Observations on results and transcripts *)

(** An ErrorResult: a mapping whose ["error"] entry is a string. *)
Definition is_ErrorResult (d : Dict) : bool :=
  match dict_get "error" d with
  | Some (VStr _) => true
  | _ => false
  end.

(** The success mappings of the three tools, recognised by their keys. *)
Definition schema_keys : list string :=
  ["catalog"; "schema"; "table"; "full_name"; "columns"].

Definition query_keys : list string :=
  ["query"; "columns"; "rows"; "row_count"; "truncated"].

Definition tables_keys : list string :=
  ["catalog"; "schema"; "tables"; "table_count"; "usage_hint"].

(** Connections opened and not yet closed along a transcript. *)
Definition open_step (n : nat) (ev : Call * Reply) : nat :=
  match ev with
  | (SqlConnect _ _ _, Done) => S n
  | (ConnectionClose, Done) => Nat.pred n
  | _ => n
  end.

Definition open_connections (t : Transcript) : nat := fold_left open_step t 0%nat.

(** Cursors opened and not yet closed along a transcript. *)
Definition cursor_step (n : nat) (ev : Call * Reply) : nat :=
  match ev with
  | (ConnectionCursor, Done) => S n
  | (CursorClose, Done) => Nat.pred n
  | _ => n
  end.

Definition open_cursors (t : Transcript) : nat := fold_left cursor_step t 0%nat.

Definition calls (t : Transcript) : list Call := map fst t.

(** The client's contract on [fetchmany(size)]: a fetch that returns hands
    back at most [size] rows (the Databricks cursor refuses a negative
    [size] with a [ValueError]). *)
Definition fetchmany_capped (eng : Engine) : Prop :=
  forall t size rows,
    cursor_fetchmany eng t size = inr rows ->
    (Z.of_nat (List.length rows) <= size)%Z.

(** The client raises only what [except Exception] catches and [str]
    renders, as PEP 249 has it: its errors derive from [Exception] and carry
    a message. *)
Definition pep249_client (eng : Engine) : Prop :=
  (forall t h p k e, sql_connect eng t h p k = inl e -> reportable e = true) /\
  (forall t e, connection_cursor eng t = inl e -> reportable e = true) /\
  (forall t q e, cursor_execute eng t q = inl e -> reportable e = true) /\
  (forall t e, cursor_fetchall eng t = inl e -> reportable e = true) /\
  (forall t n e, cursor_fetchmany eng t n = inl e -> reportable e = true) /\
  (forall t e, cursor_close eng t = inl e -> reportable e = true) /\
  (forall t e, connection_close eng t = inl e -> reportable e = true).

(** ** Scripted clients, for concrete runs *)

(** A client on which every call succeeds: statements have result-set
    metadata [description] and rows [rows]. *)
Definition scripted (description : option (list ColumnDesc)) (rows : list Row)
    : Engine :=
  {| sql_connect := fun _ _ _ _ => inr tt;
     connection_cursor := fun _ => inr tt;
     cursor_execute := fun _ _ => inr description;
     cursor_fetchall := fun _ => inr rows;
     cursor_fetchmany := fun _ size =>
       if (size <? 0)%Z
       then inl (mkExn ValueError "size argument for fetchmany must be >= 0")
       else inr (firstn (Z.to_nat size) rows);
     cursor_close := fun _ => inr tt;
     connection_close := fun _ => inr tt;
     workspace_client := fun _ _ _ => inr tt |}.

(** A client whose [execute] raises [e]; everything else succeeds. *)
Definition failing_execute (e : Exn) : Engine :=
  {| sql_connect := fun _ _ _ _ => inr tt;
     connection_cursor := fun _ => inr tt;
     cursor_execute := fun _ _ => inl e;
     cursor_fetchall := fun _ => inr [];
     cursor_fetchmany := fun _ _ => inr [];
     cursor_close := fun _ => inr tt;
     connection_close := fun _ => inr tt;
     workspace_client := fun _ _ _ => inr tt |}.

Definition full_config : Config :=
  {| DATABRICKS_HOST := Some "https://adb-1.azuredatabricks.net";
     DATABRICKS_TOKEN := Some "dapi";
     DATABRICKS_HTTP_PATH := Some "/sql/1.0/warehouses/w";
     DATABRICKS_CATALOG := None;
     DATABRICKS_SCHEMA := None |}.

(** A deployment whose token was never set. *)
Definition no_token : Config :=
  {| DATABRICKS_HOST := Some "https://adb-1.azuredatabricks.net";
     DATABRICKS_TOKEN := None;
     DATABRICKS_HTTP_PATH := Some "/sql/1.0/warehouses/w";
     DATABRICKS_CATALOG := Some "main";
     DATABRICKS_SCHEMA := Some "default" |}.

(** A deployment whose host value carries the scheme a second time, after a
    proxy prefix. *)
Definition proxied_host : Config :=
  {| DATABRICKS_HOST := Some "proxy.example.com/https://adb-1.azuredatabricks.net";
     DATABRICKS_TOKEN := Some "dapi";
     DATABRICKS_HTTP_PATH := Some "/sql/1.0/warehouses/w";
     DATABRICKS_CATALOG := None;
     DATABRICKS_SCHEMA := None |}.

(** The fault of a statement on a table that does not exist. *)
Definition table_not_found : Exn :=
  mkExn ClientError "[TABLE_OR_VIEW_NOT_FOUND] The table or view cannot be found.".

Definition text_column (name : string) : ColumnDesc :=
  mkColumnDesc name (VStr "string") VNone VNone VNone VNone VNone.

(** The last fetch on a transcript: the call and the rows it returned. *)
Definition fetch_step (acc : option (Call * list Row)) (ev : Call * Reply)
    : option (Call * list Row) :=
  match ev with
  | (c, Fetched rows) => Some (c, rows)
  | _ => acc
  end.

Definition last_fetch (t : Transcript) : option (Call * list Row) :=
  fold_left fetch_step t None.

(** The [cursor.description] left by the last successful [execute]. *)
Definition description_step (acc : option (option (list ColumnDesc)))
    (ev : Call * Reply) : option (option (list ColumnDesc)) :=
  match ev with
  | (_, Executed d) => Some d
  | _ => acc
  end.

Definition last_description (t : Transcript) : option (option (list ColumnDesc)) :=
  fold_left description_step t None.

(** ** Reading [DESCRIBE TABLE] rows *)

(** The column dictionary of a row: [row[0]], [row[1]] and [row[2]], the
    last one [None] when the row has no third field. *)
Definition column_of (row : Row) : PyVal :=
  VDict [("name", nth 0 row VNone);
         ("type", nth 1 row VNone);
         ("comment", nth 2 row VNone)].

(** The first field is a string that starts with ['#']. *)
Definition starts_with_hash (row : Row) : bool :=
  match row with
  | VStr s :: _ => prefix "#" s
  | _ => false
  end.

(** The first field is empty, null or otherwise falsy (or missing). *)
Definition falsy_name (row : Row) : bool := negb (truthy (nth 0 row VNone)).

(** The rows [get_table_schema] keeps: the test of its loop. *)
Definition is_column (row : Row) : bool :=
  negb (falsy_name row) && negb (starts_with_hash row).

(** The columns as the specification words them: every row but those whose
    name starts with ['#']. *)
Definition columns_as_stated (rows : list Row) : list PyVal :=
  map column_of (filter (fun row => negb (starts_with_hash row)) rows).

(** ** Host normalisation, as the specification words it *)

Fixpoint drop (n : nat) (s : string) : string :=
  match n, s with
  | S k, String _ rest => drop k rest
  | _, _ => s
  end.

(** Remove [p] when [s] starts with it; leave [s] alone otherwise. *)
Definition strip_prefix (p s : string) : string :=
  if prefix p s then drop (String.length p) s else s.

(** [p] occurs somewhere in [s]. *)
Fixpoint occurs (p s : string) : bool :=
  match s with
  | EmptyString => prefix p s
  | String _ rest => prefix p s || occurs p rest
  end.

(** ** What a tool may hand back *)

(** The outcome is a value, never an escaping exception, and that value is
    exactly one of: an ErrorResult, or the tool's success mapping (its keys
    are [success_keys]). *)
Definition result_or_error (success_keys : list string)
    (outcome : Transcript * Res Dict) : Prop :=
  exists d,
    snd outcome = inr d /\
    ((is_ErrorResult d = true /\ keys d <> success_keys) \/
     (is_ErrorResult d = false /\ keys d = success_keys)).

(** ** The session shared by the three tools *)

(** The three [try] blocks are the same session around one statement:
    connect, open a cursor, execute, fetch, read the rows, close the cursor,
    close the connection, build the mapping.  They differ in the statement
    [operation], in the fetch call ([fetch], answered by [answer]), in the
    row loop [parse] and in the mapping [build]. *)
Definition session {X : Type} (eng : Engine) (cfg : Config) (operation : string)
    (fetch : Call) (answer : Transcript -> Res (list Row))
    (parse : option (list ColumnDesc) -> list Row -> Res X)
    (build : option (list ColumnDesc) -> X -> Dict) : M Dict :=
  get_databricks_connection eng cfg ;;;
  do_cursor eng ;;;
  description <- do_execute eng operation ;;
  results <- perform fetch answer Fetched ;;
  x <- lift (parse description results) ;;
  do_cursor_close eng ;;;
  do_connection_close eng ;;;
  ret (build description x).

(** The transcript of a session that went through. *)
Definition session_events (server_hostname http_path token operation : string)
    (fetch : Call) (description : option (list ColumnDesc)) (rows : list Row)
    : Transcript :=
  [(SqlConnect server_hostname http_path token, Done);
   (ConnectionCursor, Done);
   (CursorExecute operation, Executed description);
   (fetch, Fetched rows);
   (CursorClose, Done);
   (ConnectionClose, Done)].

(** The statements of the two namespace tools. *)
Definition describe_statement (catalog schema table : string) : string :=
  "DESCRIBE TABLE " ++ catalog ++ "." ++ schema ++ "." ++ table.

Definition show_statement (catalog schema : string) : string :=
  "SHOW TABLES IN " ++ catalog ++ "." ++ schema.

(** The ErrorResults of the three [except] clauses, for the message
    [error]. *)
Definition schema_error (error : string) (catalog schema : option string)
    (table : string) : Dict :=
  [("error", VStr error); ("catalog", of_opt catalog);
   ("schema", of_opt schema); ("table", VStr table)].

Definition query_error (error query : string) : Dict :=
  [("error", VStr error); ("query", VStr query)].

Definition tables_error (error : string) (catalog schema : option string) : Dict :=
  [("error", VStr error); ("catalog", of_opt catalog);
   ("schema", of_opt schema)].

(** The values that have no [startswith] method. *)
Definition lacks_startswith (v : PyVal) : bool :=
  match v with
  | VStr _ | VBytes _ => false
  | _ => true
  end.

(** The exception of [bytes.startswith] on a [str] argument. *)
Definition bytes_error : Exn :=
  mkExn TypeError
    "startswith first arg must be bytes or a tuple of bytes, not str".

(** An exception that is an [Exception] but whose [str] raises. *)
Definition unprintable : Exn :=
  Fault ClientError "boom"
    (Some (mkExn TypeError "__str__ returned non-string (type int)")).

(** ** Reading [SHOW TABLES] rows *)

(** The table dictionary of a row: [row[1]], and [row[2]] or [False] when
    the row has no third field. *)
Definition table_of (row : Row) : PyVal :=
  VDict [("name", nth 1 row VNone);
         ("is_temporary", nth 2 row (VBool false))].

(** ** Reading query rows *)

(** [dict(zip(columns, row))]. *)
Definition zip_row (columns : list string) (row : Row) : PyVal :=
  VDict (combine columns row).

(** The position of the last occurrence of [col] in [columns], counted from
    [i]. *)
Fixpoint last_position (col : string) (columns : list string) (i : nat)
    : option nat :=
  match columns with
  | [] => None
  | c :: rest =>
      match last_position col rest (S i) with
      | Some j => Some j
      | None => if c =? col then Some i else None
      end
  end.

(** A column dictionary with a usable name: a non-empty string that does not
    start with ['#']. *)
Definition named_column (column : PyVal) : bool :=
  match column with
  | VDict (("name", VStr s) :: _) => negb (s =? "") && negb (prefix "#" s)
  | _ => false
  end.

(** Two deployments with the same connection settings. *)
Definition same_connection (cfg cfg' : Config) : Prop :=
  DATABRICKS_HOST cfg = DATABRICKS_HOST cfg' /\
  DATABRICKS_TOKEN cfg = DATABRICKS_TOKEN cfg' /\
  DATABRICKS_HTTP_PATH cfg = DATABRICKS_HTTP_PATH cfg'.

(** A deployment with default catalog and schema. *)
Definition with_defaults : Config :=
  {| DATABRICKS_HOST := Some "https://adb-1.azuredatabricks.net";
     DATABRICKS_TOKEN := Some "dapi";
     DATABRICKS_HTTP_PATH := Some "/sql/1.0/warehouses/w";
     DATABRICKS_CATALOG := Some "main";
     DATABRICKS_SCHEMA := Some "default" |}.

(** A client whose [fetchall] and [fetchmany] raise [e]; everything else
    succeeds. *)
Definition failing_fetch (e : Exn) : Engine :=
  {| sql_connect := fun _ _ _ _ => inr tt;
     connection_cursor := fun _ => inr tt;
     cursor_execute := fun _ _ => inr None;
     cursor_fetchall := fun _ => inl e;
     cursor_fetchmany := fun _ _ => inl e;
     cursor_close := fun _ => inr tt;
     connection_close := fun _ => inr tt;
     workspace_client := fun _ _ _ => inr tt |}.

(** ** More observations on transcripts *)

Definition is_raised (ev : Call * Reply) : bool :=
  match ev with
  | (_, Raised _) => true
  | _ => false
  end.

(** Connections successfully opened along a piece of transcript. *)
Definition is_connected (ev : Call * Reply) : bool :=
  match ev with
  | (SqlConnect _ _ _, Done) => true
  | _ => false
  end.

Definition opened (evs : Transcript) : nat := List.length (filter is_connected evs).

(** From [t] to [t'] the client saw an initial part of one session around
    [operation], and nothing after a call that raised. *)
Definition follows_session (cfg : Config) (operation : string) (fetch : Call)
    (t t' : Transcript) : Prop :=
  exists evs,
    t' = (t ++ evs)%list /\
    forallb (fun ev => negb (is_raised ev)) (removelast evs) = true /\
    (evs = [] \/
     exists host token http_path rest,
       DATABRICKS_HOST cfg = Some host /\
       DATABRICKS_TOKEN cfg = Some token /\
       DATABRICKS_HTTP_PATH cfg = Some http_path /\
       (calls evs ++ rest)%list =
         [SqlConnect (str_replace host "https://" "") http_path token;
          ConnectionCursor;
          CursorExecute operation;
          fetch;
          CursorClose;
          ConnectionClose]).

(** The connection opened on the way from [t] to [t'] is closed again when
    the result is a success, and still open when it is an ErrorResult. *)
Definition closed_iff_success (t : Transcript) (outcome : Transcript * Res Dict)
    : Prop :=
  exists evs d,
    outcome = ((t ++ evs)%list, inr d) /\
    (opened evs <= 1)%nat /\
    if is_ErrorResult d
    then open_connections (t ++ evs)%list = (open_connections t + opened evs)%nat
    else opened evs = 1%nat /\
         open_connections (t ++ evs)%list = open_connections t /\
         open_cursors (t ++ evs)%list = open_cursors t.

(** When the last call made on the way from [t] raised [e], the outcome is
    the mapping [report e]. *)
Definition reports_fault (report : Exn -> Dict) (t : Transcript)
    (outcome : Transcript * Res Dict) : Prop :=
  exists evs d,
    outcome = ((t ++ evs)%list, inr d) /\
    forall pre c e, evs = (pre ++ [(c, Raised e)])%list -> d = report e.

(** A [DESCRIBE TABLE] row the loop of [get_table_schema] can read: it has a
    first field, and when that field is truthy it is a string, and the row
    has a second field unless the string starts with ['#']. *)
Definition readable_row (row : Row) : bool :=
  match row with
  | [] => false
  | name :: rest =>
      if truthy name then
        match name with
        | VStr s => prefix "#" s || (1 <=? List.length rest)%nat
        | _ => false
        end
      else true
  end.

(** The exception of [t[i]] past the end of a tuple. *)
Definition index_error : Exn := mkExn IndexError "tuple index out of range".

(** When the last call made on the way from [t] is the fetch, answered with
    [rows] after an [execute] that left [description], the outcome is
    related to them by [P]. *)
Definition stops_after_fetch (operation : string) (fetch : Call)
    (P : option (list ColumnDesc) -> list Row -> Dict -> Prop)
    (t : Transcript) (outcome : Transcript * Res Dict) : Prop :=
  exists evs d,
    outcome = ((t ++ evs)%list, inr d) /\
    forall pre description rows,
      evs = (pre ++ [(CursorExecute operation, Executed description);
                     (fetch, Fetched rows)])%list ->
      P description rows d.

(** A client that returns a row of a single field. *)
Definition one_field_rows : Engine :=
  scripted (Some [text_column "a"; text_column "b"]) [[VStr "orders"]].

(** ** Running the monad *)

Section Runs.

Context {A B : Type}.

Lemma bind_ok (m : M A) (k : A -> M B) t t' b :
  bind m k t = (t', inr b) ->
  exists t1 a, m t = (t1, inr a) /\ k a t1 = (t', inr b).
Proof.
  unfold bind. destruct (m t) as [t1 [e | a]]; intros H.
  - discriminate.
  - exists t1, a. split; [reflexivity | exact H].
Qed.

Lemma perform_ok (c : Call) (answer : Transcript -> Res A) (reply : A -> Reply)
    t t' a :
  perform c answer reply t = (t', inr a) ->
  answer t = inr a /\ t' = (t ++ [(c, reply a)])%list.
Proof.
  unfold perform. destruct (answer t) as [e | a0]; intros H; inversion H.
  subst. split; reflexivity.
Qed.

Lemma lift_ok (r : Res A) t t' a :
  lift r t = (t', inr a) -> r = inr a /\ t' = t.
Proof.
  unfold lift. intros H. inversion H. split; reflexivity.
Qed.

Lemma ret_ok (a a' : A) t t' :
  ret a t = (t', inr a') -> a' = a /\ t' = t.
Proof.
  unfold ret. intros H. inversion H. split; reflexivity.
Qed.

(** A guarded block ends as the block does, or, on an [Exception], as the
    handler does. *)
Lemma try_except_cases (body : M A) (handler : Exn -> M A) t :
  (exists t' a, body t = (t', inr a) /\ try_except body handler t = (t', inr a)) \/
  (exists t1 e,
      body t = (t1, inl e) /\
      try_except body handler t =
        if is_Exception (exn_class e) then handler e t1 else (t1, inl e)).
Proof.
  unfold try_except. destruct (body t) as [t1 [e | a]].
  - right. exists t1, e. split; reflexivity.
  - left. exists t1, a. split; reflexivity.
Qed.

(** A handler that returns has rendered the exception. *)
Lemma report_ok (e : Exn) (report : string -> A) t t' a :
  bind (lift (str_exn e)) (fun error => ret (report error)) t = (t', inr a) ->
  a = report (exn_msg e) /\ t' = t /\ str_raises e = None.
Proof.
  unfold bind, lift, str_exn, ret.
  destruct e as [cls msg [e' |]]; cbn; intros H; inversion H.
  repeat split.
Qed.

End Runs.

(** A connection is handed out only on a complete configuration, and by a
    single [sql.connect] with the host rewritten. *)
Lemma get_databricks_connection_ok eng cfg t t' u :
  get_databricks_connection eng cfg t = (t', inr u) ->
  exists host http_path token,
    DATABRICKS_HOST cfg = Some host /\
    DATABRICKS_HTTP_PATH cfg = Some http_path /\
    DATABRICKS_TOKEN cfg = Some token /\
    t' = (t ++ [(SqlConnect (str_replace host "https://" "") http_path token,
                 Done)])%list.
Proof.
  unfold get_databricks_connection.
  destruct (negb (all_set _)); [discriminate |].
  destruct (DATABRICKS_HOST cfg) as [host |]; [| discriminate].
  destruct (DATABRICKS_HTTP_PATH cfg) as [http_path |]; [| discriminate].
  destruct (DATABRICKS_TOKEN cfg) as [token |]; [| discriminate].
  intros H. apply perform_ok in H. destruct H as [_ ->].
  exists host, http_path, token. repeat split.
Qed.

Ltac bind_step H :=
  let t1 := fresh "t" in
  let a := fresh "a" in
  let H1 := fresh "Hstep" in
  apply bind_ok in H; destruct H as (t1 & a & H1 & H).

Ltac call_step H :=
  let t1 := fresh "t" in
  let a := fresh "a" in
  let H1 := fresh "Hstep" in
  apply bind_ok in H; destruct H as (t1 & a & H1 & H);
  unfold do_cursor, do_execute, do_fetchall, do_fetchmany, do_cursor_close,
    do_connection_close in H1;
  apply perform_ok in H1; destruct H1 as [_ ->].

(** The calls and answers of a completed [try] block of [get_table_schema]. *)
Lemma schema_try_ok eng cfg table catalog schema t t' d :
  schema_try eng cfg table catalog schema t = (t', inr d) ->
  exists host http_path token description rows columns,
    DATABRICKS_HOST cfg = Some host /\
    DATABRICKS_HTTP_PATH cfg = Some http_path /\
    DATABRICKS_TOKEN cfg = Some token /\
    t' = (t ++ [(SqlConnect (str_replace host "https://" "") http_path token, Done);
                (ConnectionCursor, Done);
                (CursorExecute
                   ("DESCRIBE TABLE " ++
                    fmt_opt catalog ++ "." ++ fmt_opt schema ++ "." ++ table),
                 Executed description);
                (CursorFetchall, Fetched rows);
                (CursorClose, Done);
                (ConnectionClose, Done)])%list /\
    schema_loop rows [] = inr columns /\
    d = [("catalog", of_opt catalog);
         ("schema", of_opt schema);
         ("table", VStr table);
         ("full_name",
          VStr (fmt_opt catalog ++ "." ++ fmt_opt schema ++ "." ++ table));
         ("columns", VList columns)].
Proof.
  unfold schema_try. intros H.
  bind_step H. apply get_databricks_connection_ok in Hstep.
  destruct Hstep as (host & http_path & token & Hh & Hp & Ht & ->).
  call_step H. call_step H. call_step H.
  bind_step H. apply lift_ok in Hstep. destruct Hstep as [Hloop ->].
  call_step H. call_step H.
  apply ret_ok in H. destruct H as [-> ->].
  exists host, http_path, token, a1, a2, a3.
  repeat rewrite <- app_assoc. simpl.
  repeat split; assumption.
Qed.

(** The calls and answers of a completed [try] block of [execute_sql_query];
    [pre] is the transcript the fetch was answered from. *)
Lemma query_try_ok eng cfg query max_rows t t' d :
  query_try eng cfg query max_rows t = (t', inr d) ->
  exists host http_path token description fetched rows pre,
    DATABRICKS_HOST cfg = Some host /\
    DATABRICKS_HTTP_PATH cfg = Some http_path /\
    DATABRICKS_TOKEN cfg = Some token /\
    cursor_fetchmany eng pre max_rows = inr fetched /\
    t' = (t ++ [(SqlConnect (str_replace host "https://" "") http_path token, Done);
                (ConnectionCursor, Done);
                (CursorExecute query, Executed description);
                (CursorFetchmany max_rows, Fetched fetched);
                (CursorClose, Done);
                (ConnectionClose, Done)])%list /\
    query_loop (column_names description) fetched [] = inr rows /\
    d = [("query", VStr query);
         ("columns", VList (map VStr (column_names description)));
         ("rows", VList rows);
         ("row_count", VInt (Z.of_nat (List.length rows)));
         ("truncated", VBool (Z.of_nat (List.length rows) >=? max_rows)%Z)].
Proof.
  unfold query_try. intros H.
  bind_step H. apply get_databricks_connection_ok in Hstep.
  destruct Hstep as (host & http_path & token & Hh & Hp & Ht & ->).
  call_step H. call_step H.
  bind_step H. unfold do_fetchmany in Hstep. apply perform_ok in Hstep.
  destruct Hstep as [Hfetch ->].
  bind_step H. apply lift_ok in Hstep. destruct Hstep as [Hloop ->].
  call_step H. call_step H.
  apply ret_ok in H. destruct H as [-> ->].
  exists host, http_path, token, a1, a2, a3. eexists.
  repeat rewrite <- app_assoc. simpl.
  repeat split; try eassumption.
Qed.

(** The calls and answers of a completed [try] block of [list_tables]. *)
Lemma tables_try_ok eng cfg catalog schema t t' d :
  tables_try eng cfg catalog schema t = (t', inr d) ->
  exists host http_path token description rows tables,
    DATABRICKS_HOST cfg = Some host /\
    DATABRICKS_HTTP_PATH cfg = Some http_path /\
    DATABRICKS_TOKEN cfg = Some token /\
    t' = (t ++ [(SqlConnect (str_replace host "https://" "") http_path token, Done);
                (ConnectionCursor, Done);
                (CursorExecute
                   ("SHOW TABLES IN " ++ fmt_opt catalog ++ "." ++ fmt_opt schema),
                 Executed description);
                (CursorFetchall, Fetched rows);
                (CursorClose, Done);
                (ConnectionClose, Done)])%list /\
    tables_loop rows [] = inr tables /\
    d = [("catalog", of_opt catalog);
         ("schema", of_opt schema);
         ("tables", VList tables);
         ("table_count", VInt (Z.of_nat (List.length tables)));
         ("usage_hint",
          VStr ("To query these tables, use the full name: " ++
                fmt_opt catalog ++ "." ++ fmt_opt schema ++ ".<table_name>"))].
Proof.
  unfold tables_try. intros H.
  bind_step H. apply get_databricks_connection_ok in Hstep.
  destruct Hstep as (host & http_path & token & Hh & Hp & Ht & ->).
  call_step H. call_step H. call_step H.
  bind_step H. apply lift_ok in Hstep. destruct Hstep as [Hloop ->].
  call_step H. call_step H.
  apply ret_ok in H. destruct H as [-> ->].
  exists host, http_path, token, a1, a2, a3.
  repeat rewrite <- app_assoc. simpl.
  repeat split; assumption.
Qed.

(** A tool that did not answer with an ErrorResult ran its [try] block to
    the end. *)
Lemma get_table_schema_success eng cfg table catalog schema t t' d :
  get_table_schema eng cfg table catalog schema t = (t', inr d) ->
  is_ErrorResult d = false ->
  schema_try eng cfg table (py_or catalog (DATABRICKS_CATALOG cfg))
    (py_or schema (DATABRICKS_SCHEMA cfg)) t = (t', inr d).
Proof.
  unfold get_table_schema. intros H Hd.
  destruct (negb _ || negb _).
  - apply ret_ok in H. destruct H as [-> _]. discriminate.
  - match type of H with
    | try_except ?b ?h _ = _ => destruct (try_except_cases b h t)
        as [(t1 & a & Hb & Hr) | (t1 & e & Hb & Hr)]
    end; rewrite Hr in H.
    + inversion H. subst. exact Hb.
    + destruct (is_Exception (exn_class e)); [| discriminate].
      apply report_ok in H. destruct H as (-> & _ & _). discriminate.
Qed.

Lemma execute_sql_query_success eng cfg query max_rows t t' d :
  execute_sql_query eng cfg query max_rows t = (t', inr d) ->
  is_ErrorResult d = false ->
  query_try eng cfg query max_rows t = (t', inr d).
Proof.
  unfold execute_sql_query. intros H Hd.
  match type of H with
  | try_except ?b ?h _ = _ => destruct (try_except_cases b h t)
      as [(t1 & a & Hb & Hr) | (t1 & e & Hb & Hr)]
  end; rewrite Hr in H.
  - inversion H. subst. exact Hb.
  - destruct (is_Exception (exn_class e)); [| discriminate].
    apply report_ok in H. destruct H as (-> & _ & _). discriminate.
Qed.

Lemma list_tables_success eng cfg catalog schema t t' d :
  list_tables eng cfg catalog schema t = (t', inr d) ->
  is_ErrorResult d = false ->
  tables_try eng cfg (py_or catalog (DATABRICKS_CATALOG cfg))
    (py_or schema (DATABRICKS_SCHEMA cfg)) t = (t', inr d).
Proof.
  unfold list_tables. intros H Hd.
  destruct (negb _ || negb _).
  - apply ret_ok in H. destruct H as [-> _]. discriminate.
  - match type of H with
    | try_except ?b ?h _ = _ => destruct (try_except_cases b h t)
        as [(t1 & a & Hb & Hr) | (t1 & e & Hb & Hr)]
    end; rewrite Hr in H.
    + inversion H. subst. exact Hb.
    + destruct (is_Exception (exn_class e)); [| discriminate].
      apply report_ok in H. destruct H as (-> & _ & _). discriminate.
Qed.

(** ** The row loops *)

Lemma last_fetch_app t l :
  last_fetch (t ++ l)%list = fold_left fetch_step l (last_fetch t).
Proof. unfold last_fetch. apply fold_left_app. Qed.

Lemma calls_app (t l : Transcript) : calls (t ++ l)%list = (calls t ++ calls l)%list.
Proof. unfold calls. apply map_app. Qed.

Lemma last_description_app t l :
  last_description (t ++ l)%list = fold_left description_step l (last_description t).
Proof. unfold last_description. apply fold_left_app. Qed.

(** A row that yields a column passes [is_column], and the column is
    [column_of] the row. *)
Lemma schema_row_keep row c :
  schema_row row = inr (Some c) -> is_column row = true /\ c = column_of row.
Proof.
  unfold schema_row, is_column, falsy_name, column_of, getitem, rbind.
  destruct row as [| v0 [| v1 [| v2 rest]]]; simpl; try discriminate;
    destruct (truthy v0) eqn:Hv; try discriminate;
    destruct v0; simpl; try discriminate;
    destruct (prefix "#" s); simpl; try discriminate;
    intros H; inversion H; split; reflexivity.
Qed.

Lemma schema_row_skip row :
  schema_row row = inr None -> is_column row = false.
Proof.
  unfold schema_row, is_column, falsy_name, getitem, rbind.
  destruct row as [| v0 [| v1 [| v2 rest]]]; simpl; try discriminate;
    destruct (truthy v0) eqn:Hv; try reflexivity;
    destruct v0; simpl; try discriminate;
    destruct (prefix "#" s); simpl; try discriminate; reflexivity.
Qed.

(** The loop of [get_table_schema], when it completes, appends the columns
    of the rows that pass [is_column], in order. *)
Lemma schema_loop_ok rows : forall acc columns,
  schema_loop rows acc = inr columns ->
  columns = (acc ++ map column_of (filter is_column rows))%list.
Proof.
  induction rows as [| row rest IH]; intros acc columns H; simpl in H.
  - inversion H. simpl. now rewrite app_nil_r.
  - unfold rbind in H. destruct (schema_row row) as [e | [c |]] eqn:Hrow.
    + discriminate.
    + apply schema_row_keep in Hrow. destruct Hrow as [Hk ->].
      apply IH in H. simpl. rewrite Hk. simpl.
      rewrite H, <- app_assoc. reflexivity.
    + apply schema_row_skip in Hrow. apply IH in H. simpl. rewrite Hrow.
      exact H.
Qed.

(** What a successful [get_table_schema] fetched and what it returned. *)
Lemma get_table_schema_columns eng cfg table catalog schema t t' d :
  get_table_schema eng cfg table catalog schema t = (t', inr d) ->
  is_ErrorResult d = false ->
  exists rows,
    last_fetch t' = Some (CursorFetchall, rows) /\
    dict_get "columns" d = Some (VList (map column_of (filter is_column rows))).
Proof.
  intros H Hd. apply get_table_schema_success in H; [| exact Hd].
  apply schema_try_ok in H.
  destruct H as (host & path & token & desc & rows & columns &
                 _ & _ & _ & -> & Hloop & ->).
  exists rows. split.
  - rewrite last_fetch_app. reflexivity.
  - apply schema_loop_ok in Hloop. subst columns. reflexivity.
Qed.

(** ** [str.replace] against prefix removal *)

Lemma replace_from_absent old new s :
  occurs old s = false -> replace_from old new 0 s = s.
Proof.
  induction s as [| c rest IH]; intros H.
  - reflexivity.
  - cbn [occurs] in H. apply orb_false_iff in H. destruct H as [Hp Hrest].
    cbn [replace_from]. rewrite Hp, (IH Hrest). reflexivity.
Qed.

Lemma replace_from_skip old new s : forall k,
  replace_from old new k s = replace_from old new 0 (drop k s).
Proof.
  induction s as [| c rest IH]; intros k.
  - destruct k; reflexivity.
  - destruct k as [| k].
    + reflexivity.
    + cbn [replace_from drop]. apply IH.
Qed.

(** Where [old] shows up at most once, at the very start, removing every
    occurrence and removing the leading one are the same. *)
Lemma str_replace_strip_prefix old s :
  occurs old (strip_prefix old s) = false ->
  str_replace s old "" = strip_prefix old s.
Proof.
  unfold str_replace, strip_prefix.
  destruct old as [| a old'].
  - destruct s; simpl; discriminate.
  - cbn [String.eqb]. destruct s as [| c rest].
    + reflexivity.
    + destruct (prefix (String a old') (String c rest)) eqn:Hp; intros H.
      * cbn [replace_from]. rewrite Hp.
        cbn [String.length Nat.sub]. rewrite Nat.sub_0_r.
        rewrite replace_from_skip.
        cbn [String.length drop] in H |- *.
        rewrite (replace_from_absent _ _ _ H). reflexivity.
      * apply replace_from_absent. exact H.
Qed.

Lemma query_loop_length columns results : forall acc rows,
  query_loop columns results acc = inr rows ->
  List.length rows = (List.length acc + List.length results)%nat.
Proof.
  induction results as [| row rest IH]; intros acc rows H; simpl in H.
  - inversion H. simpl. lia.
  - unfold rbind in H. destruct (fill_row row 0 columns []) as [e | row_dict].
    + discriminate.
    + apply IH in H. rewrite H, length_app. simpl. lia.
Qed.

(** What a successful [execute_sql_query] asked for, what it fetched and
    what it returned. *)
Lemma execute_sql_query_result eng cfg query max_rows t t' d :
  execute_sql_query eng cfg query max_rows t = (t', inr d) ->
  is_ErrorResult d = false ->
  exists description fetched rows pre hostname http_path token,
    cursor_fetchmany eng pre max_rows = inr fetched /\
    calls t' = (calls t ++ [SqlConnect hostname http_path token;
                            ConnectionCursor;
                            CursorExecute query;
                            CursorFetchmany max_rows;
                            CursorClose;
                            ConnectionClose])%list /\
    last_description t' = Some description /\
    last_fetch t' = Some (CursorFetchmany max_rows, fetched) /\
    List.length rows = List.length fetched /\
    d = [("query", VStr query);
         ("columns", VList (map VStr (column_names description)));
         ("rows", VList rows);
         ("row_count", VInt (Z.of_nat (List.length rows)));
         ("truncated", VBool (Z.of_nat (List.length rows) >=? max_rows)%Z)].
Proof.
  intros H Hd. apply execute_sql_query_success in H; [| exact Hd].
  apply query_try_ok in H.
  destruct H as (host & path & token & desc & fetched & rows & pre &
                 _ & _ & _ & Hfetch & -> & Hloop & ->).
  exists desc, fetched, rows, pre. do 3 eexists.
  split; [exact Hfetch |].
  split; [rewrite calls_app; reflexivity |].
  split; [rewrite last_description_app; reflexivity |].
  split; [rewrite last_fetch_app; reflexivity |].
  split; [| reflexivity].
  apply query_loop_length in Hloop. exact Hloop.
Qed.

Lemma scripted_fetchmany_capped description rows :
  fetchmany_capped (scripted description rows).
Proof.
  intros t size fetched. simpl.
  destruct (size <? 0)%Z eqn:Hs; [discriminate |].
  intros H. inversion H. apply Z.ltb_ge in Hs.
  rewrite length_firstn. lia.
Qed.

(** ** Every run of a session *)

Lemma schema_try_session eng cfg table catalog schema :
  schema_try eng cfg table catalog schema =
  session eng cfg (describe_statement (fmt_opt catalog) (fmt_opt schema) table)
    CursorFetchall (cursor_fetchall eng)
    (fun _ results => schema_loop results [])
    (fun _ columns =>
       [("catalog", of_opt catalog);
        ("schema", of_opt schema);
        ("table", VStr table);
        ("full_name",
         VStr (fmt_opt catalog ++ "." ++ fmt_opt schema ++ "." ++ table));
        ("columns", VList columns)]).
Proof. reflexivity. Qed.

Lemma query_try_session eng cfg query max_rows :
  query_try eng cfg query max_rows =
  session eng cfg query
    (CursorFetchmany max_rows) (fun t => cursor_fetchmany eng t max_rows)
    (fun description results => query_loop (column_names description) results [])
    (fun description rows =>
       [("query", VStr query);
        ("columns", VList (map VStr (column_names description)));
        ("rows", VList rows);
        ("row_count", VInt (Z.of_nat (List.length rows)));
        ("truncated", VBool (Z.of_nat (List.length rows) >=? max_rows)%Z)]).
Proof. reflexivity. Qed.

Lemma tables_try_session eng cfg catalog schema :
  tables_try eng cfg catalog schema =
  session eng cfg (show_statement (fmt_opt catalog) (fmt_opt schema))
    CursorFetchall (cursor_fetchall eng)
    (fun _ results => tables_loop results [])
    (fun _ tables =>
       [("catalog", of_opt catalog);
        ("schema", of_opt schema);
        ("tables", VList tables);
        ("table_count", VInt (Z.of_nat (List.length tables)));
        ("usage_hint",
         VStr ("To query these tables, use the full name: " ++
               fmt_opt catalog ++ "." ++ fmt_opt schema ++ ".<table_name>"))]).
Proof. reflexivity. Qed.

Lemma perform_cases {A : Type} (c : Call) (answer : Transcript -> Res A)
    (reply : A -> Reply) (t : Transcript) :
  (exists e, perform c answer reply t = ((t ++ [(c, Raised e)])%list, inl e)) \/
  (exists a, answer t = inr a /\
             perform c answer reply t = ((t ++ [(c, reply a)])%list, inr a)).
Proof.
  unfold perform. destruct (answer t) as [e | a].
  - left. exists e. reflexivity.
  - right. exists a. split; reflexivity.
Qed.

Lemma all_set_three h k p :
  all_set [h; k; p] = true ->
  exists host token http_path,
    h = Some host /\ k = Some token /\ p = Some http_path /\
    host <> "" /\ token <> "" /\ http_path <> "".
Proof.
  unfold all_set, truthy_opt. cbn [forallb]. intros H.
  apply andb_true_iff in H. destruct H as [Hh H].
  apply andb_true_iff in H. destruct H as [Hk H].
  apply andb_true_iff in H. destruct H as [Hp _].
  destruct h as [host |]; [| discriminate].
  destruct k as [token |]; [| discriminate].
  destruct p as [http_path |]; [| discriminate].
  cbn [of_opt truthy] in Hh, Hk, Hp.
  exists host, token, http_path. repeat split; try reflexivity;
    intros ->; discriminate.
Qed.

(** The connection factory either refuses, without a call, or makes the one
    [sql.connect]. *)
Lemma get_databricks_connection_cases eng cfg t :
  (all_set [DATABRICKS_HOST cfg; DATABRICKS_TOKEN cfg;
            DATABRICKS_HTTP_PATH cfg] = false /\
   get_databricks_connection eng cfg t =
     (t, inl (mkExn ValueError missing_connection_settings))) \/
  (exists host token http_path,
      DATABRICKS_HOST cfg = Some host /\
      DATABRICKS_TOKEN cfg = Some token /\
      DATABRICKS_HTTP_PATH cfg = Some http_path /\
      host <> "" /\ token <> "" /\ http_path <> "" /\
      get_databricks_connection eng cfg t =
        perform (SqlConnect (str_replace host "https://" "") http_path token)
          (fun t => sql_connect eng t (str_replace host "https://" "")
                      http_path token)
          (fun _ => Done) t).
Proof.
  unfold get_databricks_connection.
  destruct (all_set _) eqn:Hall.
  - right. apply all_set_three in Hall.
    destruct Hall as (host & token & http_path & Hh & Hk & Hp & Nh & Nk & Np).
    exists host, token, http_path. rewrite Hh, Hk, Hp.
    repeat split; assumption.
  - left. split; reflexivity.
Qed.

(** Every run of a session: refused for want of settings; stopped by the
    fault of the [k]-th client call; stopped by a fault of the row loop,
    after the fetch; or gone through. *)
Lemma session_runs {X : Type} eng cfg operation fetch answer
    (parse : option (list ColumnDesc) -> list Row -> Res X) build t :
  (all_set [DATABRICKS_HOST cfg; DATABRICKS_TOKEN cfg;
            DATABRICKS_HTTP_PATH cfg] = false /\
   session eng cfg operation fetch answer parse build t =
     (t, inl (mkExn ValueError missing_connection_settings))) \/
  (exists host token http_path description rows,
      DATABRICKS_HOST cfg = Some host /\
      DATABRICKS_TOKEN cfg = Some token /\
      DATABRICKS_HTTP_PATH cfg = Some http_path /\
      host <> "" /\ token <> "" /\ http_path <> "" /\
      ((exists k c e,
           nth_error
             (calls (session_events (str_replace host "https://" "") http_path
                       token operation fetch description rows)) k = Some c /\
           session eng cfg operation fetch answer parse build t =
             ((t ++ firstn k (session_events (str_replace host "https://" "")
                                http_path token operation fetch description rows)
                 ++ [(c, Raised e)])%list, inl e)) \/
       (exists e,
           parse description rows = inl e /\
           session eng cfg operation fetch answer parse build t =
             ((t ++ firstn 4 (session_events (str_replace host "https://" "")
                                http_path token operation fetch description rows))%list,
              inl e)) \/
       (exists x,
           parse description rows = inr x /\
           session eng cfg operation fetch answer parse build t =
             ((t ++ session_events (str_replace host "https://" "") http_path
                      token operation fetch description rows)%list,
              inr (build description x))))).
Proof.
  destruct (get_databricks_connection_cases eng cfg t)
    as [[Hall Hc] | (host & token & http_path & Hh & Hk & Hp & Nh & Nk & Np & Hc)].
  { left. split; [exact Hall |]. unfold session, bind. rewrite Hc. reflexivity. }
  right. exists host, token, http_path.
  assert (stop : forall description rows k c e t',
             nth_error
               (calls (session_events (str_replace host "https://" "") http_path
                         token operation fetch description rows)) k = Some c ->
             t' = (t ++ firstn k (session_events (str_replace host "https://" "")
                                    http_path token operation fetch description rows)
                     ++ [(c, Raised e)])%list ->
             exists description rows,
               DATABRICKS_HOST cfg = Some host /\
               DATABRICKS_TOKEN cfg = Some token /\
               DATABRICKS_HTTP_PATH cfg = Some http_path /\
               host <> "" /\ token <> "" /\ http_path <> "" /\
               ((exists k c e0,
                    nth_error
                      (calls (session_events (str_replace host "https://" "")
                                http_path token operation fetch description rows)) k
                      = Some c /\
                    (t', @inl Exn Dict e) =
                      ((t ++ firstn k (session_events (str_replace host "https://" "")
                                         http_path token operation fetch
                                         description rows)
                          ++ [(c, Raised e0)])%list, inl e0)) \/
                (exists e0,
                    parse description rows = inl e0 /\
                    (t', @inl Exn Dict e) =
                      ((t ++ firstn 4 (session_events (str_replace host "https://" "")
                                         http_path token operation fetch
                                         description rows))%list, inl e0)) \/
                (exists x,
                    parse description rows = inr x /\
                    (t', @inl Exn Dict e) =
                      ((t ++ session_events (str_replace host "https://" "")
                               http_path token operation fetch description rows)%list,
                       inr (build description x))))).
  { intros description rows k c e t' Hn ->.
    exists description, rows. repeat (split; [assumption |]).
    left. exists k, c, e. split; [exact Hn | reflexivity]. }
  unfold session, bind. rewrite Hc.
  match goal with
  | |- context [perform ?c ?a ?r t] =>
      destruct (perform_cases c a r t) as [(e & H1) | (u1 & _ & H1)]; rewrite H1
  end.
  { eapply (stop None [] 0%nat); reflexivity. }
  unfold do_cursor.
  match goal with
  | |- context [perform ConnectionCursor ?a ?r ?t1] =>
      destruct (perform_cases ConnectionCursor a r t1)
        as [(e & H2) | (u2 & _ & H2)]; rewrite H2
  end.
  { eapply (stop None [] 1%nat); [reflexivity |].
    rewrite <- app_assoc. reflexivity. }
  unfold do_execute.
  match goal with
  | |- context [perform (CursorExecute operation) ?a ?r ?t2] =>
      destruct (perform_cases (CursorExecute operation) a r t2)
        as [(e & H3) | (description & _ & H3)]; rewrite H3
  end.
  { eapply (stop None [] 2%nat); [reflexivity |].
    repeat rewrite <- app_assoc. reflexivity. }
  match goal with
  | |- context [perform fetch answer Fetched ?t3] =>
      destruct (perform_cases fetch answer Fetched t3)
        as [(e & H4) | (rows & _ & H4)]; rewrite H4
  end.
  { eapply (stop description [] 3%nat); [reflexivity |].
    repeat rewrite <- app_assoc. reflexivity. }
  unfold lift. destruct (parse description rows) as [e | x] eqn:Hparse.
  { exists description, rows. repeat (split; [assumption |]).
    right. left. exists e. split; [exact Hparse |].
    repeat rewrite <- app_assoc. reflexivity. }
  unfold do_cursor_close.
  match goal with
  | |- context [perform CursorClose ?a ?r ?t5] =>
      destruct (perform_cases CursorClose a r t5)
        as [(e & H5) | (u5 & _ & H5)]; rewrite H5
  end.
  { eapply (stop description rows 4%nat); [reflexivity |].
    repeat rewrite <- app_assoc. reflexivity. }
  unfold do_connection_close.
  match goal with
  | |- context [perform ConnectionClose ?a ?r ?t6] =>
      destruct (perform_cases ConnectionClose a r t6)
        as [(e & H6) | (u6 & _ & H6)]; rewrite H6
  end.
  { eapply (stop description rows 5%nat); [reflexivity |].
    repeat rewrite <- app_assoc. reflexivity. }
  exists description, rows. repeat (split; [assumption |]).
  right. right. exists x. split; [exact Hparse |].
  unfold ret. repeat rewrite <- app_assoc. reflexivity.
Qed.

Lemma namespace_cases cfg catalog schema :
  (negb (truthy_opt (py_or catalog (DATABRICKS_CATALOG cfg))) ||
   negb (truthy_opt (py_or schema (DATABRICKS_SCHEMA cfg))) = true) \/
  (exists c s,
      py_or catalog (DATABRICKS_CATALOG cfg) = Some c /\
      py_or schema (DATABRICKS_SCHEMA cfg) = Some s /\
      c <> "" /\ s <> "" /\
      negb (truthy_opt (py_or catalog (DATABRICKS_CATALOG cfg))) ||
      negb (truthy_opt (py_or schema (DATABRICKS_SCHEMA cfg))) = false).
Proof.
  destruct (py_or catalog (DATABRICKS_CATALOG cfg)) as [c |];
    [| left; reflexivity].
  destruct (py_or schema (DATABRICKS_SCHEMA cfg)) as [s |];
    [| left; apply orb_true_r].
  unfold truthy_opt. cbn [of_opt truthy].
  destruct (String.eqb_spec c ""); [left; reflexivity |].
  destruct (String.eqb_spec s ""); [left; reflexivity |].
  right. exists c, s. repeat split; assumption.
Qed.

Lemma open_connections_app t l :
  open_connections (t ++ l)%list = fold_left open_step l (open_connections t).
Proof. unfold open_connections. apply fold_left_app. Qed.

Lemma open_cursors_app t l :
  open_cursors (t ++ l)%list = fold_left cursor_step l (open_cursors t).
Proof. unfold open_cursors. apply fold_left_app. Qed.


(** ** Faults of the row loops *)

Lemma getitem_fault row i e :
  getitem row i = inl e -> e = index_error /\ (List.length row <= i)%nat.
Proof.
  unfold getitem. destruct (nth_error row i) eqn:Hn; intros H; inversion H.
  split; [reflexivity |]. apply nth_error_None. exact Hn.
Qed.

Lemma table_row_fault row e :
  table_row row = inl e -> e = index_error /\ (List.length row <? 2)%nat = true.
Proof.
  destruct row as [| v0 [| v1 [| v2 rest]]]; cbn; intros H; inversion H;
    split; reflexivity.
Qed.

Lemma tables_loop_fault rows : forall acc e,
  tables_loop rows acc = inl e ->
  e = index_error /\
  existsb (fun row => (List.length row <? 2)%nat) rows = true.
Proof.
  induction rows as [| row rest IH]; intros acc e H; cbn [tables_loop] in H.
  - discriminate.
  - unfold rbind in H. cbn [existsb].
    destruct (table_row row) as [e' | v] eqn:Hrow.
    + inversion H. subst e'. apply table_row_fault in Hrow.
      destruct Hrow as [-> ->]. split; reflexivity.
    + apply IH in H. destruct H as [-> ->]. split; [reflexivity |].
      apply orb_true_r.
Qed.

Lemma fill_row_fault row columns : forall i acc e,
  fill_row row i columns acc = inl e ->
  e = index_error /\ (List.length row < i + List.length columns)%nat.
Proof.
  induction columns as [| col rest IH]; intros i acc e H; cbn [fill_row] in H.
  - discriminate.
  - unfold rbind in H. destruct (getitem row i) as [e' | v] eqn:Hget.
    + inversion H. subst e'. apply getitem_fault in Hget.
      destruct Hget as [-> Hlen]. split; [reflexivity |]. cbn [List.length]. lia.
    + apply IH in H. destruct H as [-> Hlen]. split; [reflexivity |].
      cbn [List.length]. lia.
Qed.

Lemma query_loop_fault columns rows : forall acc e,
  query_loop columns rows acc = inl e ->
  e = index_error /\
  existsb (fun row => (List.length row <? List.length columns)%nat) rows = true.
Proof.
  induction rows as [| row rest IH]; intros acc e H; cbn [query_loop] in H.
  - discriminate.
  - unfold rbind in H. cbn [existsb].
    destruct (fill_row row 0 columns []) as [e' | row_dict] eqn:Hrow.
    + inversion H. subst e'. apply fill_row_fault in Hrow.
      destruct Hrow as [-> Hlen]. split; [reflexivity |].
      apply orb_true_iff. left. apply Nat.ltb_lt. exact Hlen.
    + apply IH in H. destruct H as [-> ->]. split; [reflexivity |].
      apply orb_true_r.
Qed.

Lemma schema_row_fault row e :
  schema_row row = inl e ->
  e = index_error \/
  e = bytes_error \/
  exists v, truthy v = true /\ lacks_startswith v = true /\
            e = mkExn AttributeError
                  ("'" ++ type_name v ++ "' object has no attribute 'startswith'").
Proof.
  unfold schema_row, getitem, rbind.
  destruct row as [| v0 [| v1 [| v2 rest]]]; cbn;
    try (intros H; inversion H; left; reflexivity);
    destruct (truthy v0) eqn:Hv; try discriminate;
    destruct v0; cbn; try discriminate;
    try (intros H; inversion H; right; left; reflexivity);
    try (intros H; inversion H; right; right; eexists;
         split; [exact Hv | split; reflexivity]);
    destruct (prefix "#" s); cbn; try discriminate;
    intros H; inversion H; left; reflexivity.
Qed.

Lemma schema_loop_fault_kind rows : forall acc e,
  schema_loop rows acc = inl e ->
  e = index_error \/
  e = bytes_error \/
  exists v, truthy v = true /\ lacks_startswith v = true /\
            e = mkExn AttributeError
                  ("'" ++ type_name v ++ "' object has no attribute 'startswith'").
Proof.
  induction rows as [| row rest IH]; intros acc e H;
    cbn [schema_loop] in H; [discriminate |].
  unfold rbind in H. destruct (schema_row row) as [e' | [c |]] eqn:Hrow.
  - inversion H. subst e'. apply schema_row_fault in Hrow. exact Hrow.
  - apply IH in H. exact H.
  - apply IH in H. exact H.
Qed.

Lemma schema_loop_reportable (description : option (list ColumnDesc)) rows e :
  schema_loop rows [] = inl e -> reportable e = true.
Proof.
  intros H. apply schema_loop_fault_kind in H.
  destruct H as [-> | [-> | (v & _ & _ & ->)]]; reflexivity.
Qed.

Lemma query_loop_reportable (description : option (list ColumnDesc)) rows e :
  query_loop (column_names description) rows [] = inl e -> reportable e = true.
Proof.
  intros H. apply query_loop_fault in H. destruct H as [-> _]. reflexivity.
Qed.

Lemma tables_loop_reportable (description : option (list ColumnDesc)) rows e :
  tables_loop rows [] = inl e -> reportable e = true.
Proof.
  intros H. apply tables_loop_fault in H. destruct H as [-> _]. reflexivity.
Qed.

Lemma last_two_inj {A : Type} (l l' : list A) (a b a' b' : A) :
  (l ++ [a; b])%list = (l' ++ [a'; b'])%list -> a = a' /\ b = b'.
Proof.
  change (l ++ [a; b])%list with (l ++ [a] ++ [b])%list.
  change (l' ++ [a'; b'])%list with (l' ++ [a'] ++ [b'])%list.
  rewrite !app_assoc. intros H.
  apply app_inj_tail in H. destruct H as [H ->].
  apply app_inj_tail in H. destruct H as [_ ->]. split; reflexivity.
Qed.

(** ** Sessions under a handler *)

Lemma bind_fail {A B : Type} (m : M A) (k : A -> M B) t t' e :
  bind m k t = (t', inl e) ->
  m t = (t', inl e) \/ exists t1 a, m t = (t1, inr a) /\ k a t1 = (t', inl e).
Proof.
  unfold bind. destruct (m t) as [t1 [e1 | a]]; intros H.
  - left. inversion H. reflexivity.
  - right. exists t1, a. split; [reflexivity | exact H].
Qed.

Lemma perform_fail {A : Type} (c : Call) (answer : Transcript -> Res A)
    (reply : A -> Reply) t t' e :
  perform c answer reply t = (t', inl e) -> answer t = inl e.
Proof.
  unfold perform. destruct (answer t) as [e1 | a]; intros H; inversion H.
  reflexivity.
Qed.

Lemma get_databricks_connection_fail eng cfg t t' e :
  pep249_client eng ->
  get_databricks_connection eng cfg t = (t', inl e) -> reportable e = true.
Proof.
  intros (Hconnect & _) H.
  destruct (get_databricks_connection_cases eng cfg t)
    as [[_ Hc] | (host & token & http_path & _ & _ & _ & _ & _ & _ & Hc)];
    rewrite Hc in H.
  - inversion H. reflexivity.
  - apply perform_fail in H. apply Hconnect in H. exact H.
Qed.

(** On a client that keeps to PEP 249, whatever stops a session is an
    [Exception] with a message. *)
Lemma session_fault_reportable {X : Type} eng cfg operation fetch answer
    (parse : option (list ColumnDesc) -> list Row -> Res X) build t t' e :
  pep249_client eng ->
  (forall t e, answer t = inl e -> reportable e = true) ->
  (forall description rows e,
      parse description rows = inl e -> reportable e = true) ->
  session eng cfg operation fetch answer parse build t = (t', inl e) ->
  reportable e = true.
Proof.
  intros Hclient Hanswer Hparse H.
  pose proof Hclient as (_ & Hcursor & Hexecute & _ & _ & Hcclose & Hclose).
  unfold session in H.
  apply bind_fail in H. destruct H as [H | (t1 & u1 & _ & H)].
  { apply (get_databricks_connection_fail eng cfg t t' e Hclient H). }
  apply bind_fail in H. destruct H as [H | (t2 & u2 & _ & H)].
  { apply perform_fail in H. apply Hcursor in H. exact H. }
  apply bind_fail in H. destruct H as [H | (t3 & description & _ & H)].
  { unfold do_execute in H. apply perform_fail in H. apply Hexecute in H.
    exact H. }
  apply bind_fail in H. destruct H as [H | (t4 & rows & _ & H)].
  { apply perform_fail in H. apply Hanswer in H. exact H. }
  apply bind_fail in H. destruct H as [H | (t5 & x & _ & H)].
  { unfold lift in H. inversion H. apply (Hparse description rows e).
    assumption. }
  apply bind_fail in H. destruct H as [H | (t6 & u6 & _ & H)].
  { apply perform_fail in H. apply Hcclose in H. exact H. }
  apply bind_fail in H. destruct H as [H | (t7 & u7 & _ & H)].
  { apply perform_fail in H. apply Hclose in H. exact H. }
  discriminate.
Qed.

(** The handler of the tools: render the exception, return the mapping. *)
Lemma handler_reportable {A : Type} (e : Exn) (report : string -> A) t :
  reportable e = true ->
  (if is_Exception (exn_class e)
   then bind (lift (str_exn e)) (fun error => ret (report error)) t
   else (t, inl e)) = (t, inr (report (exn_msg e))).
Proof.
  unfold reportable, bind, lift, str_exn, ret.
  destruct e as [cls msg [e' |]]; cbn; intros H.
  - rewrite andb_false_r in H. discriminate.
  - rewrite andb_true_r in H. rewrite H. reflexivity.
Qed.

(** A handler that leaves the transcript alone does so on every exception. *)
Lemma guarded_transcript {A : Type} (body : M A) (report : string -> A) t :
  fst (try_except body
         (fun e => bind (lift (str_exn e)) (fun error => ret (report error))) t) =
  fst (body t).
Proof.
  unfold try_except. destruct (body t) as [t1 [e | a]]; [| reflexivity].
  destruct (is_Exception (exn_class e)); [| reflexivity].
  unfold bind, lift, str_exn, ret.
  destruct (str_raises e); reflexivity.
Qed.

Section GuardedSession.

Context {X : Type}.
Variables (eng : Engine) (cfg : Config) (operation : string) (fetch : Call).
Variable answer : Transcript -> Res (list Row).
Variable parse : option (list ColumnDesc) -> list Row -> Res X.
Variable build : option (list ColumnDesc) -> X -> Dict.
Variable report : string -> Dict.

Let guarded : M Dict :=
  try_except (session eng cfg operation fetch answer parse build)
    (fun e => bind (lift (str_exn e)) (fun error => ret (report error))).

Lemma guarded_follows_session t :
  follows_session cfg operation fetch t (fst (guarded t)).
Proof.
  unfold guarded. rewrite guarded_transcript. unfold follows_session.
  destruct (session_runs eng cfg operation fetch answer parse build t)
    as [[_ Hr] |
        (host & token & http_path & description & rows & Hh & Hk & Hp &
         _ & _ & _ & Hr)].
  { rewrite Hr. exists []. cbn [fst]. rewrite app_nil_r.
    repeat split. left. reflexivity. }
  destruct Hr as [(k & c & e & Hn & Hr) | [(e & _ & Hr) | (x & _ & Hr)]];
    rewrite Hr; cbn [fst]; eexists; (split; [reflexivity |]).
  - do 6 (destruct k as [| k];
          [cbn in Hn; inversion Hn; subst c; split; [reflexivity |];
           right; exists host, token, http_path; eexists;
           repeat (split; [eassumption |]); cbn; reflexivity |]).
    cbn in Hn. destruct k; discriminate.
  - split; [reflexivity |]. right. exists host, token, http_path.
    exists [CursorClose; ConnectionClose].
    repeat (split; [assumption |]). reflexivity.
  - split; [reflexivity |]. right. exists host, token, http_path. exists [].
    repeat (split; [assumption |]). reflexivity.
Qed.

Hypothesis client_ok : pep249_client eng.
Hypothesis answer_ok : forall t e, answer t = inl e -> reportable e = true.
Hypothesis parse_ok :
  forall description rows e,
    parse description rows = inl e -> reportable e = true.

(** Every run of a guarded session on a client that keeps to PEP 249. *)
Lemma guarded_session_runs t :
  (all_set [DATABRICKS_HOST cfg; DATABRICKS_TOKEN cfg;
            DATABRICKS_HTTP_PATH cfg] = false /\
   guarded t = (t, inr (report missing_connection_settings))) \/
  (exists host token http_path description rows,
      DATABRICKS_HOST cfg = Some host /\
      DATABRICKS_TOKEN cfg = Some token /\
      DATABRICKS_HTTP_PATH cfg = Some http_path /\
      host <> "" /\ token <> "" /\ http_path <> "" /\
      ((exists k c e,
           nth_error
             (calls (session_events (str_replace host "https://" "") http_path
                       token operation fetch description rows)) k = Some c /\
           guarded t =
             ((t ++ firstn k (session_events (str_replace host "https://" "")
                                http_path token operation fetch description rows)
                 ++ [(c, Raised e)])%list, inr (report (exn_msg e)))) \/
       (exists e,
           parse description rows = inl e /\
           guarded t =
             ((t ++ firstn 4 (session_events (str_replace host "https://" "")
                                http_path token operation fetch description rows))%list,
              inr (report (exn_msg e)))) \/
       (exists x,
           parse description rows = inr x /\
           guarded t =
             ((t ++ session_events (str_replace host "https://" "") http_path
                      token operation fetch description rows)%list,
              inr (build description x))))).
Proof.
  assert (caught : forall t' e,
             session eng cfg operation fetch answer parse build t = (t', inl e) ->
             guarded t = (t', inr (report (exn_msg e)))).
  { intros t' e Hr. unfold guarded, try_except. rewrite Hr.
    apply handler_reportable.
    apply (session_fault_reportable eng cfg operation fetch answer parse build
             t t' e client_ok answer_ok parse_ok Hr). }
  destruct (session_runs eng cfg operation fetch answer parse build t)
    as [[Hall Hr] |
        (host & token & http_path & description & rows & Hh & Hk & Hp &
         Nh & Nk & Np & Hr)].
  - left. split; [exact Hall |]. apply caught in Hr. exact Hr.
  - right. exists host, token, http_path, description, rows.
    repeat (split; [assumption |]).
    destruct Hr as [(k & c & e & Hn & Hr) | [(e & Hparse & Hr) | (x & Hparse & Hr)]].
    + left. exists k, c, e. split; [exact Hn |]. apply caught in Hr. exact Hr.
    + right. left. exists e. split; [exact Hparse |]. apply caught in Hr. exact Hr.
    + right. right. exists x. split; [exact Hparse |].
      unfold guarded, try_except. rewrite Hr. reflexivity.
Qed.

Lemma guarded_reports_fault t :
  reports_fault (fun e => report (exn_msg e)) t (guarded t).
Proof.
  unfold reports_fault.
  destruct (guarded_session_runs t)
    as [[_ Hr] |
        (host & token & http_path & description & rows & _ & _ & _ &
         _ & _ & _ & Hr)].
  { rewrite Hr. exists []. eexists. rewrite app_nil_r. split; [reflexivity |].
    intros pre c e H. destruct pre; discriminate. }
  destruct Hr as [(k & c & e & Hn & Hr) | [(e & _ & Hr) | (x & _ & Hr)]];
    rewrite Hr; eexists; eexists; (split; [reflexivity |]);
    intros pre c' e' H.
  - apply app_inj_tail in H. destruct H as [_ H]. inversion H. reflexivity.
  - cbn [firstn session_events] in H.
    match type of H with
    | [?a; ?b; ?c; ?d] = _ => change [a; b; c; d] with ([a; b; c] ++ [d])%list in H
    end.
    apply app_inj_tail in H. destruct H as [_ H]. discriminate.
  - unfold session_events in H.
    match type of H with
    | [?a; ?b; ?c; ?d; ?e; ?f] = _ =>
        change [a; b; c; d; e; f] with ([a; b; c; d; e] ++ [f])%list in H
    end.
    apply app_inj_tail in H. destruct H as [_ H]. discriminate.
Qed.

Lemma guarded_stops_after_fetch
    (P : option (list ColumnDesc) -> list Row -> Dict -> Prop) t :
  (forall description rows e,
      parse description rows = inl e -> P description rows (report (exn_msg e))) ->
  stops_after_fetch operation fetch P t (guarded t).
Proof.
  intros HP. unfold stops_after_fetch.
  destruct (guarded_session_runs t)
    as [[_ Hr] |
        (host & token & http_path & description & rows & _ & _ & _ &
         _ & _ & _ & Hr)].
  { rewrite Hr. exists []. eexists. rewrite app_nil_r. split; [reflexivity |].
    intros pre d0 r0 H. destruct pre; discriminate. }
  destruct Hr as [(k & c & e & Hn & Hr) | [(e & Hparse & Hr) | (x & _ & Hr)]];
    rewrite Hr; eexists; eexists; (split; [reflexivity |]);
    intros pre d0 r0 H.
  - match type of H with
    | _ = (pre ++ [?a; ?b])%list =>
        change (pre ++ [a; b])%list with (pre ++ [a] ++ [b])%list in H
    end.
    rewrite app_assoc in H.
    apply app_inj_tail in H. destruct H as [_ H]. discriminate.
  - cbn [firstn session_events] in H.
    match type of H with
    | [?a; ?b; ?c; ?d] = _ => change [a; b; c; d] with ([a; b] ++ [c; d])%list in H
    end.
    apply last_two_inj in H. destruct H as [H1 H2].
    inversion H1. inversion H2. subst. apply HP. exact Hparse.
  - unfold session_events in H.
    match type of H with
    | [?a; ?b; ?c; ?d; ?e; ?f] = _ =>
        change [a; b; c; d; e; f] with ([a; b; c; d] ++ [e; f])%list in H
    end.
    apply last_two_inj in H. destruct H as [H1 _]. discriminate.
Qed.

Hypothesis report_is_error : forall error, is_ErrorResult (report error) = true.
Hypothesis build_is_success : forall d x, is_ErrorResult (build d x) = false.

Lemma guarded_closed_iff_success t : closed_iff_success t (guarded t).
Proof.
  unfold closed_iff_success.
  destruct (guarded_session_runs t)
    as [[_ Hr] |
        (host & token & http_path & description & rows & _ & _ & _ &
         _ & _ & _ & Hr)].
  { rewrite Hr. exists []. eexists. rewrite app_nil_r. split; [reflexivity |].
    rewrite report_is_error. cbn. split; lia. }
  destruct Hr as [(k & c & e & Hn & Hr) | [(e & _ & Hr) | (x & _ & Hr)]];
    rewrite Hr; eexists; eexists; (split; [reflexivity |]);
    rewrite ?report_is_error, ?build_is_success;
    rewrite ?open_connections_app, ?open_cursors_app.
  - do 6 (destruct k as [| k];
          [cbn in Hn; inversion Hn; subst c; destruct fetch; cbn; split; lia |]).
    cbn in Hn. destruct k; discriminate.
  - destruct fetch; cbn; split; lia.
  - destruct fetch; cbn; repeat split; lia.
Qed.

(** The outcome of a guarded session is a mapping: the success mapping or
    the ErrorResult. *)
Lemma guarded_returns t :
  exists d,
    snd (guarded t) = inr d /\
    ((exists error, d = report error) \/
     (exists description x, d = build description x)).
Proof.
  destruct (guarded_session_runs t)
    as [[_ Hr] |
        (host & token & http_path & description & rows & _ & _ & _ &
         _ & _ & _ & Hr)].
  { rewrite Hr. eexists. split; [reflexivity |]. left. eexists. reflexivity. }
  destruct Hr as [(k & c & e & Hn & Hr) | [(e & _ & Hr) | (x & _ & Hr)]];
    rewrite Hr; eexists; (split; [reflexivity |]).
  - left. eexists. reflexivity.
  - left. eexists. reflexivity.
  - right. exists description, x. reflexivity.
Qed.

End GuardedSession.

(** The tools are sessions under a handler. *)
Lemma execute_sql_query_guarded eng cfg query max_rows :
  execute_sql_query eng cfg query max_rows =
  try_except
    (session eng cfg query
       (CursorFetchmany max_rows) (fun t => cursor_fetchmany eng t max_rows)
       (fun description results =>
          query_loop (column_names description) results [])
       (fun description rows =>
          [("query", VStr query);
           ("columns", VList (map VStr (column_names description)));
           ("rows", VList rows);
           ("row_count", VInt (Z.of_nat (List.length rows)));
           ("truncated", VBool (Z.of_nat (List.length rows) >=? max_rows)%Z)]))
    (fun e => bind (lift (str_exn e))
                (fun error => ret (query_error error query))).
Proof. reflexivity. Qed.

Lemma get_table_schema_guarded eng cfg table catalog schema c s :
  py_or catalog (DATABRICKS_CATALOG cfg) = Some c ->
  py_or schema (DATABRICKS_SCHEMA cfg) = Some s ->
  c <> "" -> s <> "" ->
  get_table_schema eng cfg table catalog schema =
  try_except
    (session eng cfg (describe_statement c s table)
       CursorFetchall (cursor_fetchall eng)
       (fun _ results => schema_loop results [])
       (fun _ columns =>
          [("catalog", VStr c);
           ("schema", VStr s);
           ("table", VStr table);
           ("full_name", VStr (c ++ "." ++ s ++ "." ++ table));
           ("columns", VList columns)]))
    (fun e => bind (lift (str_exn e))
                (fun error => ret (schema_error error (Some c) (Some s) table))).
Proof.
  intros Hc Hs Nc Ns. unfold get_table_schema. rewrite Hc, Hs.
  unfold truthy_opt. cbn [of_opt truthy].
  apply String.eqb_neq in Nc, Ns. rewrite Nc, Ns. reflexivity.
Qed.

Lemma list_tables_guarded eng cfg catalog schema c s :
  py_or catalog (DATABRICKS_CATALOG cfg) = Some c ->
  py_or schema (DATABRICKS_SCHEMA cfg) = Some s ->
  c <> "" -> s <> "" ->
  list_tables eng cfg catalog schema =
  try_except
    (session eng cfg (show_statement c s)
       CursorFetchall (cursor_fetchall eng)
       (fun _ results => tables_loop results [])
       (fun _ tables =>
          [("catalog", VStr c);
           ("schema", VStr s);
           ("tables", VList tables);
           ("table_count", VInt (Z.of_nat (List.length tables)));
           ("usage_hint",
            VStr ("To query these tables, use the full name: " ++
                  c ++ "." ++ s ++ ".<table_name>"))]))
    (fun e => bind (lift (str_exn e))
                (fun error => ret (tables_error error (Some c) (Some s)))).
Proof.
  intros Hc Hs Nc Ns. unfold list_tables. rewrite Hc, Hs.
  unfold truthy_opt. cbn [of_opt truthy].
  apply String.eqb_neq in Nc, Ns. rewrite Nc, Ns. reflexivity.
Qed.

Lemma fetchall_ok eng :
  pep249_client eng ->
  forall t e, cursor_fetchall eng t = inl e -> reportable e = true.
Proof. intros (_ & _ & _ & H & _). exact H. Qed.

Lemma fetchmany_ok eng max_rows :
  pep249_client eng ->
  forall t e, cursor_fetchmany eng t max_rows = inl e -> reportable e = true.
Proof. intros (_ & _ & _ & _ & H & _) t e. apply H. Qed.

Lemma scripted_pep249 description rows : pep249_client (scripted description rows).
Proof.
  repeat split; cbn; try discriminate.
  intros _ n e. destruct (n <? 0)%Z; intros H; inversion H. reflexivity.
Qed.

Lemma failing_fetch_pep249 e :
  reportable e = true -> pep249_client (failing_fetch e).
Proof.
  intros He. repeat split; cbn; try discriminate;
    intros; match goal with H : inl _ = inl _ |- _ => inversion H end;
    subst; exact He.
Qed.

(** ** What leaves the tools *)

(** C1, as stated, fails.  [except Exception] does not catch a
    [KeyboardInterrupt] raised while the statement runs: it leaves each of
    the three tools, which then returns no mapping at all.  An [Exception]
    whose [str] raises leaves the tool too, from inside the handler. *)
Lemma exception_escapes_the_tools :
  let interrupt := mkExn KeyboardInterrupt "" in
  let connect :=
    (SqlConnect "adb-1.azuredatabricks.net" "/sql/1.0/warehouses/w" "dapi", Done) in
  execute_sql_query (failing_execute interrupt) full_config
    "SELECT * FROM main.default.users" 1000 [] =
    ([connect; (ConnectionCursor, Done);
      (CursorExecute "SELECT * FROM main.default.users", Raised interrupt)],
     inl interrupt) /\
  ~ result_or_error query_keys
      (execute_sql_query (failing_execute interrupt) full_config
         "SELECT * FROM main.default.users" 1000 []) /\
  ~ result_or_error schema_keys
      (get_table_schema (failing_execute interrupt) full_config "users"
         (Some "main") (Some "default") []) /\
  ~ result_or_error tables_keys
      (list_tables (failing_execute interrupt) full_config
         (Some "main") (Some "default") []) /\
  snd (execute_sql_query (failing_execute unprintable) full_config
         "SELECT * FROM main.default.users" 1000 []) =
    inl (mkExn TypeError "__str__ returned non-string (type int)").
Proof.
  cbv zeta. split; [reflexivity |].
  split; [| split; [| split; [| reflexivity]]];
    intros (d & Hd & _); discriminate Hd.
Qed.

(** C1, amended. On a client whose faults are exceptions that derive from
    [Exception] and that [str] renders (what PEP 249 asks of a client's
    errors), whatever the arguments and the history, each of
    [get_table_schema], [execute_sql_query] and [list_tables] ends by
    returning a mapping, which is exactly one of the tool's success mapping
    or an ErrorResult carrying an ["error"] string: a fault raised while
    connecting (the [ValueError] of the connection factory included),
    executing, fetching or reading the rows never leaves the tool. *)
Theorem tools_return_on_exceptions (eng : Engine) (cfg : Config) (t : Transcript) :
  pep249_client eng ->
  (forall table catalog schema,
      result_or_error schema_keys
        (get_table_schema eng cfg table catalog schema t)) /\
  (forall query max_rows,
      result_or_error query_keys (execute_sql_query eng cfg query max_rows t)) /\
  (forall catalog schema,
      result_or_error tables_keys (list_tables eng cfg catalog schema t)).
Proof.
  intros Hclient. split; [| split].
  - intros table catalog schema. unfold result_or_error.
    destruct (namespace_cases cfg catalog schema)
      as [Hg | (c & s & Hc & Hs & Nc & Ns & _)].
    + unfold get_table_schema. rewrite Hg. eexists. split; [reflexivity |].
      left. split; [reflexivity | discriminate].
    + rewrite (get_table_schema_guarded eng cfg table catalog schema c s Hc Hs Nc Ns).
      match goal with
      | |- context [try_except (session _ _ ?op ?f ?a ?p ?b)
                      (fun e => bind _ (fun error => ret (@?r error)))] =>
          destruct (guarded_returns eng cfg op f a p b r Hclient
                      (fetchall_ok eng Hclient) schema_loop_reportable t)
            as (d & Hd & [(error & ->) | (description & x & ->)])
      end; eexists; (split; [exact Hd |]).
      * left. split; [reflexivity | discriminate].
      * right. split; reflexivity.
  - intros query max_rows. unfold result_or_error.
    rewrite execute_sql_query_guarded.
    match goal with
    | |- context [try_except (session _ _ ?op ?f ?a ?p ?b)
                    (fun e => bind _ (fun error => ret (@?r error)))] =>
        destruct (guarded_returns eng cfg op f a p b r Hclient
                    (fetchmany_ok eng max_rows Hclient) query_loop_reportable t)
          as (d & Hd & [(error & ->) | (description & x & ->)])
    end; eexists; (split; [exact Hd |]).
    + left. split; [reflexivity | discriminate].
    + right. split; reflexivity.
  - intros catalog schema. unfold result_or_error.
    destruct (namespace_cases cfg catalog schema)
      as [Hg | (c & s & Hc & Hs & Nc & Ns & _)].
    + unfold list_tables. rewrite Hg. eexists. split; [reflexivity |].
      left. split; [reflexivity | discriminate].
    + rewrite (list_tables_guarded eng cfg catalog schema c s Hc Hs Nc Ns).
      match goal with
      | |- context [try_except (session _ _ ?op ?f ?a ?p ?b)
                      (fun e => bind _ (fun error => ret (@?r error)))] =>
          destruct (guarded_returns eng cfg op f a p b r Hclient
                      (fetchall_ok eng Hclient) tables_loop_reportable t)
            as (d & Hd & [(error & ->) | (description & x & ->)])
      end; eexists; (split; [exact Hd |]).
      * left. split; [reflexivity | discriminate].
      * right. split; reflexivity.
Qed.

Lemma tools_return_on_exceptions_witness :
  result_or_error schema_keys
    (get_table_schema (failing_fetch table_not_found) full_config "users"
       (Some "main") (Some "default") []) /\
  result_or_error query_keys
    (execute_sql_query (failing_fetch table_not_found) full_config
       "SELECT * FROM main.default.users" 1000 []) /\
  result_or_error tables_keys
    (list_tables (failing_fetch table_not_found) full_config
       (Some "main") (Some "default") []).
Proof.
  destruct (tools_return_on_exceptions (failing_fetch table_not_found)
              full_config [] (failing_fetch_pep249 table_not_found eq_refl))
    as (Hs & Hq & Hl).
  split; [apply Hs |]. split; [apply Hq | apply Hl].
Defined.

(** ** The columns of [get_table_schema] *)

(** C3, as stated, fails.  [DESCRIBE TABLE] separates the column rows from
    the ["# Partition Information"] block by a row of empty strings; that
    row does not start with ['#'], yet it is not among the returned
    columns. *)
Lemma columns_as_stated_fails :
  let rows := [[VStr "id"; VStr "bigint"; VNone];
               [VStr ""; VStr ""; VStr ""];
               [VStr "# Partitioning"; VStr ""; VStr ""]] in
  exists t' d,
    get_table_schema (scripted None rows) full_config "users"
      (Some "main") (Some "default") [] = (t', inr d) /\
    is_ErrorResult d = false /\
    last_fetch t' = Some (CursorFetchall, rows) /\
    dict_get "columns" d <> Some (VList (columns_as_stated rows)).
Proof.
  intros rows. eexists. eexists.
  split; [reflexivity |]. split; [reflexivity |]. split; [reflexivity |].
  vm_compute. discriminate.
Qed.

(** C3, amended. On every successful [get_table_schema] call the returned
    ["columns"] are the rows the client returned, in its order, each as
    [{name, type, comment}], without the rows whose first field starts with
    ['#'] and without the rows whose first field is empty or null.  For the
    rows [("id","bigint",None), ("name","string",None),
    ("# Partitioning","","")] the columns are exactly those of [id] and
    [name]. *)
Theorem schema_columns_filtered :
  (forall eng cfg table catalog schema t t' d,
      get_table_schema eng cfg table catalog schema t = (t', inr d) ->
      is_ErrorResult d = false ->
      exists rows,
        last_fetch t' = Some (CursorFetchall, rows) /\
        dict_get "columns" d =
          Some (VList (map column_of
                         (filter (fun row => negb (falsy_name row) &&
                                             negb (starts_with_hash row))
                                 rows)))) /\
  (exists t',
      get_table_schema
        (scripted None [[VStr "id"; VStr "bigint"; VNone];
                        [VStr "name"; VStr "string"; VNone];
                        [VStr "# Partitioning"; VStr ""; VStr ""]])
        full_config "users" (Some "main") (Some "default") [] =
      (t', inr [("catalog", VStr "main");
                ("schema", VStr "default");
                ("table", VStr "users");
                ("full_name", VStr "main.default.users");
                ("columns",
                 VList [VDict [("name", VStr "id"); ("type", VStr "bigint");
                               ("comment", VNone)];
                        VDict [("name", VStr "name"); ("type", VStr "string");
                               ("comment", VNone)]])])).
Proof.
  split.
  - intros eng cfg table catalog schema t t' d H Hd.
    exact (get_table_schema_columns eng cfg table catalog schema t t' d H Hd).
  - eexists. reflexivity.
Qed.

Lemma schema_columns_filtered_witness :
  exists rows,
    last_fetch
      (fst (get_table_schema
              (scripted None [[VStr "id"; VStr "bigint"; VNone];
                              [VStr ""; VStr ""; VStr ""]])
              full_config "users" (Some "main") (Some "default") [])) =
      Some (CursorFetchall, rows) /\
    dict_get "columns"
      [("catalog", VStr "main"); ("schema", VStr "default");
       ("table", VStr "users"); ("full_name", VStr "main.default.users");
       ("columns", VList [VDict [("name", VStr "id"); ("type", VStr "bigint");
                                 ("comment", VNone)]])] =
      Some (VList (map column_of
                     (filter (fun row => negb (falsy_name row) &&
                                         negb (starts_with_hash row))
                             rows))).
Proof.
  apply (proj1 schema_columns_filtered
           (scripted None [[VStr "id"; VStr "bigint"; VNone];
                           [VStr ""; VStr ""; VStr ""]])
           full_config "users" (Some "main") (Some "default") []).
  - reflexivity.
  - reflexivity.
Defined.

(** C9. On every successful [get_table_schema] call a row whose first field
    is empty or null (any falsy name) is left out of ["columns"], like the
    rows that start with ['#']: the columns are those of the remaining rows,
    and no returned column comes from a falsy-named row.  A row of empty
    strings between two columns disappears from the schema. *)
Theorem schema_drops_falsy_names :
  (forall eng cfg table catalog schema t t' d,
      get_table_schema eng cfg table catalog schema t = (t', inr d) ->
      is_ErrorResult d = false ->
      exists rows columns,
        last_fetch t' = Some (CursorFetchall, rows) /\
        dict_get "columns" d = Some (VList columns) /\
        columns =
          map column_of
            (filter (fun row => negb (starts_with_hash row))
                    (filter (fun row => negb (falsy_name row)) rows)) /\
        (forall row, In row rows -> falsy_name row = true ->
                     ~ In (column_of row) columns)) /\
  (exists t' d,
      get_table_schema
        (scripted None [[VStr "id"; VStr "bigint"; VNone];
                        [VStr ""; VStr "string"; VNone];
                        [VNone; VStr "int"; VNone];
                        [VStr "name"; VStr "string"; VNone]])
        full_config "users" (Some "main") (Some "default") [] = (t', inr d) /\
      dict_get "columns" d =
        Some (VList [VDict [("name", VStr "id"); ("type", VStr "bigint");
                            ("comment", VNone)];
                     VDict [("name", VStr "name"); ("type", VStr "string");
                            ("comment", VNone)]])).
Proof.
  split.
  - intros eng cfg table catalog schema t t' d H Hd.
    destruct (get_table_schema_columns eng cfg table catalog schema t t' d H Hd)
      as (rows & Hf & Hc).
    exists rows. eexists. split; [exact Hf |]. split; [exact Hc |]. split.
    + f_equal. clear. induction rows as [| row rest IH]; simpl.
      * reflexivity.
      * unfold is_column at 1.
        destruct (falsy_name row); simpl; [exact IH |].
        destruct (starts_with_hash row); simpl; [exact IH |].
        now rewrite IH.
    + intros row _ Hfalsy Hin. apply in_map_iff in Hin.
      destruct Hin as (row' & Heq & Hin'). apply filter_In in Hin'.
      destruct Hin' as [_ Hk]. unfold is_column in Hk.
      apply andb_true_iff in Hk. destruct Hk as [Hk _].
      unfold falsy_name in *. unfold column_of in Heq.
      injection Heq as Hname _ _. rewrite Hname in Hk.
      rewrite Hfalsy in Hk. discriminate.
  - eexists. eexists. split; reflexivity.
Qed.

Lemma schema_drops_falsy_names_witness :
  exists rows columns,
    last_fetch
      (fst (get_table_schema
              (scripted None [[VStr ""; VStr "string"; VNone];
                              [VStr "id"; VStr "bigint"; VNone]])
              full_config "t" (Some "main") (Some "default") [])) =
      Some (CursorFetchall, rows) /\
    dict_get "columns"
      (match snd (get_table_schema
                    (scripted None [[VStr ""; VStr "string"; VNone];
                                    [VStr "id"; VStr "bigint"; VNone]])
                    full_config "t" (Some "main") (Some "default") []) with
       | inr d => d
       | inl _ => []
       end) = Some (VList columns) /\
    columns =
      map column_of
        (filter (fun row => negb (starts_with_hash row))
                (filter (fun row => negb (falsy_name row)) rows)) /\
    (forall row, In row rows -> falsy_name row = true ->
                 ~ In (column_of row) columns).
Proof.
  apply (proj1 schema_drops_falsy_names
           (scripted None [[VStr ""; VStr "string"; VNone];
                           [VStr "id"; VStr "bigint"; VNone]])
           full_config "t" (Some "main") (Some "default") []).
  - reflexivity.
  - reflexivity.
Defined.

(** ** Missing catalog or schema *)

(** C4. When, after the configured defaults are substituted, the catalog or
    the schema is still empty or absent, [get_table_schema] and
    [list_tables] return the ErrorResult that names catalog and schema and
    leave the transcript as it was: no connection is opened and nothing is
    executed.  [get_table_schema] echoes the table; the ErrorResult of
    [list_tables] has no table entry. *)
Theorem missing_namespace_is_reported_offline
    (eng : Engine) (cfg : Config) (table : string)
    (catalog schema : option string) (t : Transcript) :
  truthy_opt (py_or catalog (DATABRICKS_CATALOG cfg)) = false \/
  truthy_opt (py_or schema (DATABRICKS_SCHEMA cfg)) = false ->
  get_table_schema eng cfg table catalog schema t =
    (t, inr [("error", VStr missing_namespace); ("table", VStr table)]) /\
  list_tables eng cfg catalog schema t =
    (t, inr [("error", VStr missing_namespace)]) /\
  dict_get "table" [("error", VStr missing_namespace)] = None /\
  occurs "Catalog and schema must be provided" missing_namespace = true.
Proof.
  intros H.
  assert (Hg : negb (truthy_opt (py_or catalog (DATABRICKS_CATALOG cfg))) ||
               negb (truthy_opt (py_or schema (DATABRICKS_SCHEMA cfg))) = true).
  { destruct H as [-> | ->]; [reflexivity | apply orb_true_r]. }
  unfold get_table_schema, list_tables. rewrite Hg.
  repeat split.
Qed.

Lemma missing_namespace_is_reported_offline_witness :
  get_table_schema (scripted None []) full_config "users" None (Some "default") [] =
    ([], inr [("error", VStr missing_namespace); ("table", VStr "users")]) /\
  list_tables (scripted None []) full_config None (Some "default") [] =
    ([], inr [("error", VStr missing_namespace)]) /\
  dict_get "table" [("error", VStr missing_namespace)] = None /\
  occurs "Catalog and schema must be provided" missing_namespace = true.
Proof.
  apply (missing_namespace_is_reported_offline
           (scripted None []) full_config "users" None (Some "default") []).
  left. reflexivity.
Defined.

(** ** The connection factories *)

(** C5. With the host, the token or the HTTP path unset (or empty),
    [get_databricks_connection] raises the [ValueError] that names the three
    variables; it is an exception, not a returned value, and the client has
    not been called: no connection, no query.  [get_workspace_client] raises
    in the same way when the host or the token is unset. *)
Theorem factories_raise_on_missing_settings
    (eng : Engine) (cfg : Config) (t : Transcript) :
  (truthy_opt (DATABRICKS_HOST cfg) = false \/
   truthy_opt (DATABRICKS_TOKEN cfg) = false \/
   truthy_opt (DATABRICKS_HTTP_PATH cfg) = false ->
   get_databricks_connection eng cfg t =
     (t, inl (mkExn ValueError missing_connection_settings))) /\
  (truthy_opt (DATABRICKS_HOST cfg) = false \/
   truthy_opt (DATABRICKS_TOKEN cfg) = false ->
   get_workspace_client eng cfg t =
     (t, inl (mkExn ValueError missing_workspace_settings))) /\
  (occurs "DATABRICKS_HOST" missing_connection_settings &&
   occurs "DATABRICKS_TOKEN" missing_connection_settings &&
   occurs "DATABRICKS_HTTP_PATH" missing_connection_settings &&
   occurs "DATABRICKS_HOST" missing_workspace_settings &&
   occurs "DATABRICKS_TOKEN" missing_workspace_settings = true).
Proof.
  split; [| split].
  - intros H. unfold get_databricks_connection, all_set. cbn [forallb].
    destruct H as [-> | [-> | ->]]; cbn [andb negb];
      rewrite ?andb_false_r; reflexivity.
  - intros H. unfold get_workspace_client, all_set. cbn [forallb].
    destruct H as [-> | ->]; cbn [andb negb];
      rewrite ?andb_false_r; reflexivity.
  - reflexivity.
Qed.

Lemma factories_raise_on_missing_settings_witness :
  get_databricks_connection (scripted None []) no_token [] =
    ([], inl (mkExn ValueError missing_connection_settings)) /\
  get_workspace_client (scripted None []) no_token [] =
    ([], inl (mkExn ValueError missing_workspace_settings)).
Proof.
  destruct (factories_raise_on_missing_settings (scripted None []) no_token [])
    as (Hc & Hw & _).
  split.
  - apply Hc. right. left. reflexivity.
  - apply Hw. right. reflexivity.
Defined.

(** C8, as stated, fails: [str.replace] removes ["https://"] wherever it
    stands.  A host value that has the scheme after a proxy prefix reaches
    [sql.connect] with that inner occurrence cut out, although it has no
    leading ["https://"] and should have been passed unchanged. *)
Lemma leading_prefix_only_fails :
  exists hostname,
    get_databricks_connection (scripted None []) proxied_host [] =
      ([(SqlConnect hostname "/sql/1.0/warehouses/w" "dapi", Done)], inr tt) /\
    hostname = "proxy.example.com/adb-1.azuredatabricks.net" /\
    strip_prefix "https://" "proxy.example.com/https://adb-1.azuredatabricks.net" =
      "proxy.example.com/https://adb-1.azuredatabricks.net" /\
    hostname <>
      strip_prefix "https://" "proxy.example.com/https://adb-1.azuredatabricks.net".
Proof.
  exists "proxy.example.com/adb-1.azuredatabricks.net".
  split; [reflexivity |]. split; [reflexivity |].
  split; [reflexivity |]. vm_compute. discriminate.
Qed.

(** C8, amended. With host, token and HTTP path set, the one call the
    connection factory makes is [sql.connect] with the configured host from
    which every occurrence of ["https://"] has been removed, and with the
    path and token as configured.  Whenever ["https://"] does not occur in
    the host past a leading occurrence, that hostname is the host with its
    leading ["https://"] removed, and the host itself when it has none. *)
Theorem host_scheme_removed
    (eng : Engine) (cfg : Config) (t : Transcript)
    (host http_path token : string) :
  DATABRICKS_HOST cfg = Some host ->
  DATABRICKS_HTTP_PATH cfg = Some http_path ->
  DATABRICKS_TOKEN cfg = Some token ->
  host <> "" -> http_path <> "" -> token <> "" ->
  calls (fst (get_databricks_connection eng cfg t)) =
    (calls t ++ [SqlConnect (str_replace host "https://" "") http_path token])%list /\
  (occurs "https://" (strip_prefix "https://" host) = false ->
   str_replace host "https://" "" = strip_prefix "https://" host).
Proof.
  intros Hh Hp Ht Nh Np Nt. split.
  - unfold get_databricks_connection, all_set, truthy_opt. cbn [forallb].
    rewrite Hh, Hp, Ht. cbn [of_opt truthy].
    apply String.eqb_neq in Nh, Np, Nt. rewrite Nh, Np, Nt. cbn [negb andb].
    unfold perform.
    destruct (sql_connect eng t _ _ _); cbn [fst]; rewrite calls_app; reflexivity.
  - apply str_replace_strip_prefix.
Qed.

Lemma host_scheme_removed_witness :
  calls (fst (get_databricks_connection (scripted None []) full_config [])) =
    [SqlConnect "adb-1.azuredatabricks.net" "/sql/1.0/warehouses/w" "dapi"] /\
  (occurs "https://" (strip_prefix "https://" "https://adb-1.azuredatabricks.net") = false ->
   str_replace "https://adb-1.azuredatabricks.net" "https://" "" =
     strip_prefix "https://" "https://adb-1.azuredatabricks.net").
Proof.
  apply (host_scheme_removed (scripted None []) full_config []
           "https://adb-1.azuredatabricks.net" "/sql/1.0/warehouses/w" "dapi");
    try reflexivity; discriminate.
Defined.

(** ** The rows of [execute_sql_query] *)

(** C2. On a client whose [fetchmany(size)] hands back at most [size] rows,
    every successful [execute_sql_query(q, max_rows=N)] fetches once, with
    [fetchmany(N)] (the cap is applied by the client, nothing beyond it is
    fetched), returns one row mapping per fetched row and so at most [N] of
    them, and sets ["truncated"] exactly when the returned row count equals
    [N]. *)
Theorem rows_capped_and_truncated
    (eng : Engine) (cfg : Config) (query : string) (max_rows : Z)
    (t t' : Transcript) (d : Dict) :
  fetchmany_capped eng ->
  execute_sql_query eng cfg query max_rows t = (t', inr d) ->
  is_ErrorResult d = false ->
  exists fetched rows truncated hostname http_path token,
    calls t' = (calls t ++ [SqlConnect hostname http_path token;
                            ConnectionCursor;
                            CursorExecute query;
                            CursorFetchmany max_rows;
                            CursorClose;
                            ConnectionClose])%list /\
    last_fetch t' = Some (CursorFetchmany max_rows, fetched) /\
    dict_get "rows" d = Some (VList rows) /\
    List.length rows = List.length fetched /\
    (Z.of_nat (List.length rows) <= max_rows)%Z /\
    dict_get "row_count" d = Some (VInt (Z.of_nat (List.length rows))) /\
    dict_get "truncated" d = Some (VBool truncated) /\
    (truncated = true <-> Z.of_nat (List.length rows) = max_rows).
Proof.
  intros Hcap H Hd.
  destruct (execute_sql_query_result eng cfg query max_rows t t' d H Hd)
    as (desc & fetched & rows & pre & hostname & http_path & token &
        Hfetch & Hcalls & _ & Hlast & Hlen & ->).
  apply Hcap in Hfetch. rewrite <- Hlen in Hfetch.
  exists fetched, rows. eexists. exists hostname, http_path, token.
  split; [exact Hcalls |].
  split; [exact Hlast |]. split; [reflexivity |]. split; [exact Hlen |].
  split; [exact Hfetch |]. split; [reflexivity |]. split; [reflexivity |].
  rewrite Z.geb_le. lia.
Qed.

Lemma rows_capped_and_truncated_witness :
  exists fetched rows truncated hostname http_path token,
    calls (fst (execute_sql_query
                  (scripted (Some [text_column "n"]) [[VInt 1]; [VInt 2]; [VInt 3]])
                  full_config "SELECT n FROM main.default.t" 2 [])) =
      (calls [] ++ [SqlConnect hostname http_path token;
                    ConnectionCursor;
                    CursorExecute "SELECT n FROM main.default.t";
                    CursorFetchmany 2;
                    CursorClose;
                    ConnectionClose])%list /\
    last_fetch
      (fst (execute_sql_query
              (scripted (Some [text_column "n"]) [[VInt 1]; [VInt 2]; [VInt 3]])
              full_config "SELECT n FROM main.default.t" 2 [])) =
      Some (CursorFetchmany 2, fetched) /\
    dict_get "rows"
      [("query", VStr "SELECT n FROM main.default.t");
       ("columns", VList [VStr "n"]);
       ("rows", VList [VDict [("n", VInt 1)]; VDict [("n", VInt 2)]]);
       ("row_count", VInt 2);
       ("truncated", VBool true)] = Some (VList rows) /\
    List.length rows = List.length fetched /\
    (Z.of_nat (List.length rows) <= 2)%Z /\
    dict_get "row_count"
      [("query", VStr "SELECT n FROM main.default.t");
       ("columns", VList [VStr "n"]);
       ("rows", VList [VDict [("n", VInt 1)]; VDict [("n", VInt 2)]]);
       ("row_count", VInt 2);
       ("truncated", VBool true)] = Some (VInt (Z.of_nat (List.length rows))) /\
    dict_get "truncated"
      [("query", VStr "SELECT n FROM main.default.t");
       ("columns", VList [VStr "n"]);
       ("rows", VList [VDict [("n", VInt 1)]; VDict [("n", VInt 2)]]);
       ("row_count", VInt 2);
       ("truncated", VBool true)] = Some (VBool truncated) /\
    (truncated = true <-> Z.of_nat (List.length rows) = 2%Z).
Proof.
  apply (rows_capped_and_truncated
           (scripted (Some [text_column "n"]) [[VInt 1]; [VInt 2]; [VInt 3]])
           full_config "SELECT n FROM main.default.t" 2 []).
  - apply scripted_fetchmany_capped.
  - reflexivity.
  - reflexivity.
Defined.

(** C7, as stated, fails at [max_rows = 0]: the statement has a result set
    and the fetch returns no row, the call succeeds with [rows == []], and
    ["truncated"] is true. *)
Lemma empty_result_truncated_at_zero_cap :
  exists t' d,
    execute_sql_query (scripted (Some [text_column "n"]) []) full_config
      "SELECT n FROM main.default.t" 0 [] = (t', inr d) /\
    is_ErrorResult d = false /\
    last_fetch t' = Some (CursorFetchmany 0, []) /\
    dict_get "rows" d = Some (VList []) /\
    dict_get "truncated" d <> Some (VBool false).
Proof.
  eexists. eexists.
  split; [reflexivity |]. split; [reflexivity |]. split; [reflexivity |].
  split; [reflexivity |]. discriminate.
Qed.

(** C7, amended. On every successful [execute_sql_query] call whose fetch
    returned no row, ["columns"] holds the names of the statement's
    result-set metadata (the empty list when the statement has no result
    set), ["rows"] is the empty list, ["row_count"] is 0, and ["truncated"]
    is false provided [max_rows] is at least 1. *)
Theorem empty_result_shape
    (eng : Engine) (cfg : Config) (query : string) (max_rows : Z)
    (t t' : Transcript) (d : Dict) :
  execute_sql_query eng cfg query max_rows t = (t', inr d) ->
  is_ErrorResult d = false ->
  last_fetch t' = Some (CursorFetchmany max_rows, []) ->
  exists description,
    last_description t' = Some description /\
    dict_get "columns" d =
      Some (VList (map VStr
                     (match description with
                      | Some entries => map cd_name entries
                      | None => []
                      end))) /\
    dict_get "rows" d = Some (VList []) /\
    dict_get "row_count" d = Some (VInt 0) /\
    dict_get "truncated" d = Some (VBool (max_rows <=? 0)%Z) /\
    ((1 <= max_rows)%Z -> dict_get "truncated" d = Some (VBool false)).
Proof.
  intros H Hd Hempty.
  destruct (execute_sql_query_result eng cfg query max_rows t t' d H Hd)
    as (desc & fetched & rows & pre & _ & _ & _ & _ & _ & Hdesc & Hlast & Hlen & ->).
  rewrite Hlast in Hempty. inversion Hempty. subst fetched.
  destruct rows; [| discriminate].
  exists desc. split; [exact Hdesc |].
  assert (Hgeb : (Z.of_nat (@List.length PyVal []) >=? max_rows)%Z =
                 (max_rows <=? 0)%Z).
  { simpl. rewrite Z.geb_leb. reflexivity. }
  split.
  { simpl. destruct desc as [[| entry entries] |]; reflexivity. }
  split; [reflexivity |]. split; [reflexivity |].
  split.
  { cbn [dict_get String.eqb Ascii.eqb Bool.eqb]. rewrite Hgeb. reflexivity. }
  intros Hpos.
  cbn [dict_get String.eqb Ascii.eqb Bool.eqb]. rewrite Hgeb.
  replace (max_rows <=? 0)%Z with false; [reflexivity |].
  symmetry. apply Z.leb_gt. lia.
Qed.

Lemma empty_result_shape_witness :
  exists description,
    last_description
      (fst (execute_sql_query (scripted (Some [text_column "n"]) []) full_config
              "SELECT n FROM main.default.t" 1000 [])) = Some description /\
    dict_get "columns"
      [("query", VStr "SELECT n FROM main.default.t");
       ("columns", VList [VStr "n"]);
       ("rows", VList []);
       ("row_count", VInt 0);
       ("truncated", VBool false)] =
      Some (VList (map VStr
                     (match description with
                      | Some entries => map cd_name entries
                      | None => []
                      end))) /\
    dict_get "rows"
      [("query", VStr "SELECT n FROM main.default.t");
       ("columns", VList [VStr "n"]);
       ("rows", VList []);
       ("row_count", VInt 0);
       ("truncated", VBool false)] = Some (VList []) /\
    dict_get "row_count"
      [("query", VStr "SELECT n FROM main.default.t");
       ("columns", VList [VStr "n"]);
       ("rows", VList []);
       ("row_count", VInt 0);
       ("truncated", VBool false)] = Some (VInt 0) /\
    dict_get "truncated"
      [("query", VStr "SELECT n FROM main.default.t");
       ("columns", VList [VStr "n"]);
       ("rows", VList []);
       ("row_count", VInt 0);
       ("truncated", VBool false)] = Some (VBool (1000 <=? 0)%Z) /\
    ((1 <= 1000)%Z ->
     dict_get "truncated"
       [("query", VStr "SELECT n FROM main.default.t");
        ("columns", VList [VStr "n"]);
        ("rows", VList []);
        ("row_count", VInt 0);
        ("truncated", VBool false)] = Some (VBool false)).
Proof.
  apply (empty_result_shape (scripted (Some [text_column "n"]) []) full_config
           "SELECT n FROM main.default.t" 1000 []).
  - reflexivity.
  - reflexivity.
  - reflexivity.
Defined.

(** C10. On a client whose [fetchmany(size)] hands back at most [size] rows,
    every successful [execute_sql_query] call with [max_rows = 0] returns
    [rows == []] and [row_count == 0] with ["truncated"] true: the test
    [len(rows) >= max_rows] is [0 >= 0]. *)
Theorem zero_cap_is_truncated
    (eng : Engine) (cfg : Config) (query : string)
    (t t' : Transcript) (d : Dict) :
  fetchmany_capped eng ->
  execute_sql_query eng cfg query 0 t = (t', inr d) ->
  is_ErrorResult d = false ->
  dict_get "rows" d = Some (VList []) /\
  dict_get "row_count" d = Some (VInt 0) /\
  dict_get "truncated" d = Some (VBool true).
Proof.
  intros Hcap H Hd.
  destruct (execute_sql_query_result eng cfg query 0 t t' d H Hd)
    as (desc & fetched & rows & pre & _ & _ & _ & Hfetch & _ & _ & _ & Hlen & ->).
  apply Hcap in Hfetch. rewrite <- Hlen in Hfetch.
  destruct rows; [| simpl in Hfetch; lia].
  repeat split.
Qed.

Lemma zero_cap_is_truncated_witness :
  dict_get "rows"
    [("query", VStr "SELECT n FROM main.default.t");
     ("columns", VList [VStr "n"]);
     ("rows", VList []);
     ("row_count", VInt 0);
     ("truncated", VBool true)] = Some (VList []) /\
  dict_get "row_count"
    [("query", VStr "SELECT n FROM main.default.t");
     ("columns", VList [VStr "n"]);
     ("rows", VList []);
     ("row_count", VInt 0);
     ("truncated", VBool true)] = Some (VInt 0) /\
  dict_get "truncated"
    [("query", VStr "SELECT n FROM main.default.t");
     ("columns", VList [VStr "n"]);
     ("rows", VList []);
     ("row_count", VInt 0);
     ("truncated", VBool true)] = Some (VBool true).
Proof.
  apply (zero_cap_is_truncated
           (scripted (Some [text_column "n"]) [[VInt 1]; [VInt 2]])
           full_config "SELECT n FROM main.default.t" []
           (fst (execute_sql_query
                   (scripted (Some [text_column "n"]) [[VInt 1]; [VInt 2]])
                   full_config "SELECT n FROM main.default.t" 0 []))).
  - apply scripted_fetchmany_capped.
  - reflexivity.
  - reflexivity.
Defined.

(** ** Release of the connection *)

(** C6 does not hold of the code.  The tools close cursor and connection
    only at the end of the [try] block.  When [execute] raises (here: the
    table does not exist), each tool returns its ErrorResult after the calls
    [sql.connect], [cursor()], [execute] and nothing else: neither [close]
    is called, and one connection and one cursor are still open.  On the
    same requests answered without a fault both are closed. *)
Theorem connection_left_open_on_fault :
  let connect :=
    (SqlConnect "adb-1.azuredatabricks.net" "/sql/1.0/warehouses/w" "dapi", Done) in
  let cursor := (ConnectionCursor, Done) in
  let msg := VStr "[TABLE_OR_VIEW_NOT_FOUND] The table or view cannot be found." in
  let faulty := failing_execute table_not_found in
  let sound := scripted None [] in
  execute_sql_query faulty full_config "SELECT * FROM main.default.missing" 1000 [] =
    ([connect; cursor;
      (CursorExecute "SELECT * FROM main.default.missing", Raised table_not_found)],
     inr [("error", msg); ("query", VStr "SELECT * FROM main.default.missing")]) /\
  get_table_schema faulty full_config "missing" (Some "main") (Some "default") [] =
    ([connect; cursor;
      (CursorExecute "DESCRIBE TABLE main.default.missing", Raised table_not_found)],
     inr [("error", msg); ("catalog", VStr "main"); ("schema", VStr "default");
          ("table", VStr "missing")]) /\
  list_tables faulty full_config (Some "main") (Some "missing") [] =
    ([connect; cursor;
      (CursorExecute "SHOW TABLES IN main.missing", Raised table_not_found)],
     inr [("error", msg); ("catalog", VStr "main"); ("schema", VStr "missing")]) /\
  (forall t,
      In t [fst (execute_sql_query faulty full_config
                   "SELECT * FROM main.default.missing" 1000 []);
            fst (get_table_schema faulty full_config "missing"
                   (Some "main") (Some "default") []);
            fst (list_tables faulty full_config (Some "main") (Some "missing") [])] ->
      open_connections t = 1%nat /\ open_cursors t = 1%nat /\
      ~ In ConnectionClose (calls t) /\ ~ In CursorClose (calls t)) /\
  (forall t,
      In t [fst (execute_sql_query sound full_config
                   "SELECT * FROM main.default.missing" 1000 []);
            fst (get_table_schema sound full_config "missing"
                   (Some "main") (Some "default") []);
            fst (list_tables sound full_config (Some "main") (Some "missing") [])] ->
      open_connections t = 0%nat /\ open_cursors t = 0%nat).
Proof.
  cbv zeta.
  split; [reflexivity |]. split; [reflexivity |]. split; [reflexivity |].
  split.
  - intros t [<- | [<- | [<- | []]]];
      (split; [reflexivity |]; split; [reflexivity |]; split;
       vm_compute; intros H;
       repeat (destruct H as [H | H]; [discriminate |]); exact H).
  - intros t [<- | [<- | [<- | []]]]; split; reflexivity.
Qed.

(** * Further properties of the tools *)

(** ** The three tools as sessions *)

Lemma follows_session_nil cfg operation fetch t :
  follows_session cfg operation fetch t t.
Proof.
  exists []. rewrite app_nil_r. repeat split. left. reflexivity.
Qed.

(** X1. Whatever the client answers, a tool talks to it along one session
    and no further than the first fault: the calls a tool adds to the
    transcript are an initial part of [sql.connect] (host without
    ["https://"], configured path and token), [cursor()], [execute] of the
    tool's one statement, the tool's fetch, [cursor.close()],
    [connection.close()], and no call follows one that raised.  So a tool
    opens at most one connection, executes at most one statement and never
    builds a workspace client. *)
Theorem tools_follow_one_session (eng : Engine) (cfg : Config) (t : Transcript) :
  (forall query max_rows,
      follows_session cfg query (CursorFetchmany max_rows) t
        (fst (execute_sql_query eng cfg query max_rows t))) /\
  (forall table catalog schema,
      follows_session cfg
        (describe_statement
           (fmt_opt (py_or catalog (DATABRICKS_CATALOG cfg)))
           (fmt_opt (py_or schema (DATABRICKS_SCHEMA cfg))) table)
        CursorFetchall t
        (fst (get_table_schema eng cfg table catalog schema t))) /\
  (forall catalog schema,
      follows_session cfg
        (show_statement
           (fmt_opt (py_or catalog (DATABRICKS_CATALOG cfg)))
           (fmt_opt (py_or schema (DATABRICKS_SCHEMA cfg))))
        CursorFetchall t
        (fst (list_tables eng cfg catalog schema t))).
Proof.
  split; [| split].
  - intros query max_rows. rewrite execute_sql_query_guarded.
    apply guarded_follows_session.
  - intros table catalog schema.
    destruct (namespace_cases cfg catalog schema)
      as [Hg | (c & s & Hc & Hs & Nc & Ns & _)].
    + unfold get_table_schema. rewrite Hg. apply follows_session_nil.
    + rewrite (get_table_schema_guarded eng cfg table catalog schema c s Hc Hs Nc Ns).
      rewrite Hc, Hs. apply guarded_follows_session.
  - intros catalog schema.
    destruct (namespace_cases cfg catalog schema)
      as [Hg | (c & s & Hc & Hs & Nc & Ns & _)].
    + unfold list_tables. rewrite Hg. apply follows_session_nil.
    + rewrite (list_tables_guarded eng cfg catalog schema c s Hc Hs Nc Ns).
      rewrite Hc, Hs. apply guarded_follows_session.
Qed.

Lemma closed_iff_success_offline t d :
  is_ErrorResult d = true -> closed_iff_success t (t, inr d).
Proof.
  intros Hd. exists [], d. rewrite app_nil_r. split; [reflexivity |].
  rewrite Hd. cbn. split; lia.
Qed.

(** X2. On a client whose faults derive from [Exception] and have a
    message, whatever it answers, a tool that returns its success
    mapping has opened one connection and one cursor and closed both, and a
    tool that returns an ErrorResult has closed no connection: if it had
    opened one, that connection is still open when the tool returns. *)
Theorem connection_closed_iff_success (eng : Engine) (cfg : Config) (t : Transcript) :
  pep249_client eng ->
  (forall query max_rows,
      closed_iff_success t (execute_sql_query eng cfg query max_rows t)) /\
  (forall table catalog schema,
      closed_iff_success t (get_table_schema eng cfg table catalog schema t)) /\
  (forall catalog schema,
      closed_iff_success t (list_tables eng cfg catalog schema t)).
Proof.
  intros Hclient. split; [| split].
  - intros query max_rows. rewrite execute_sql_query_guarded.
    apply guarded_closed_iff_success;
      [exact Hclient | apply fetchmany_ok; exact Hclient
       | apply query_loop_reportable | reflexivity | reflexivity].
  - intros table catalog schema.
    destruct (namespace_cases cfg catalog schema)
      as [Hg | (c & s & Hc & Hs & Nc & Ns & _)].
    + unfold get_table_schema. rewrite Hg.
      apply closed_iff_success_offline. reflexivity.
    + rewrite (get_table_schema_guarded eng cfg table catalog schema c s Hc Hs Nc Ns).
      apply guarded_closed_iff_success;
        [exact Hclient | apply fetchall_ok; exact Hclient
         | apply schema_loop_reportable | reflexivity | reflexivity].
  - intros catalog schema.
    destruct (namespace_cases cfg catalog schema)
      as [Hg | (c & s & Hc & Hs & Nc & Ns & _)].
    + unfold list_tables. rewrite Hg.
      apply closed_iff_success_offline. reflexivity.
    + rewrite (list_tables_guarded eng cfg catalog schema c s Hc Hs Nc Ns).
      apply guarded_closed_iff_success;
        [exact Hclient | apply fetchall_ok; exact Hclient
         | apply tables_loop_reportable | reflexivity | reflexivity].
Qed.

Lemma connection_closed_iff_success_witness :
  closed_iff_success []
    (execute_sql_query (failing_fetch table_not_found) full_config
       "SELECT * FROM main.default.missing" 1000 []) /\
  closed_iff_success []
    (get_table_schema (scripted None [[VStr "id"; VStr "bigint"]]) full_config
       "users" (Some "main") (Some "default") []).
Proof.
  split.
  - apply (proj1 (connection_closed_iff_success (failing_fetch table_not_found)
                    full_config []
                    (failing_fetch_pep249 table_not_found eq_refl))).
  - apply (proj1 (proj2 (connection_closed_iff_success
                           (scripted None [[VStr "id"; VStr "bigint"]])
                           full_config []
                           (scripted_pep249 None [[VStr "id"; VStr "bigint"]])))).
Defined.

Lemma reports_fault_offline report t d : reports_fault report t (t, inr d).
Proof.
  exists [], d. rewrite app_nil_r. split; [reflexivity |].
  intros pre c e H. destruct pre; discriminate.
Qed.

(** X3. On a client whose faults derive from [Exception] and have a
    message, whichever call raises (connect, cursor, execute, fetch or
    one of the two closes), the tool returns the ErrorResult made of the
    message of that very exception and the echo of the request: the query
    for [execute_sql_query]; the resolved catalog and schema and the table
    for [get_table_schema]; the resolved catalog and schema for
    [list_tables]. *)
Theorem client_fault_is_reported (eng : Engine) (cfg : Config) (t : Transcript) :
  pep249_client eng ->
  (forall query max_rows,
      reports_fault
        (fun e => [("error", VStr (exn_msg e)); ("query", VStr query)])
        t (execute_sql_query eng cfg query max_rows t)) /\
  (forall table catalog schema,
      reports_fault
        (fun e => [("error", VStr (exn_msg e));
                   ("catalog", of_opt (py_or catalog (DATABRICKS_CATALOG cfg)));
                   ("schema", of_opt (py_or schema (DATABRICKS_SCHEMA cfg)));
                   ("table", VStr table)])
        t (get_table_schema eng cfg table catalog schema t)) /\
  (forall catalog schema,
      reports_fault
        (fun e => [("error", VStr (exn_msg e));
                   ("catalog", of_opt (py_or catalog (DATABRICKS_CATALOG cfg)));
                   ("schema", of_opt (py_or schema (DATABRICKS_SCHEMA cfg)))])
        t (list_tables eng cfg catalog schema t)).
Proof.
  intros Hclient. split; [| split].
  - intros query max_rows. rewrite execute_sql_query_guarded.
    apply (guarded_reports_fault eng cfg);
      [exact Hclient | apply fetchmany_ok; exact Hclient
       | apply query_loop_reportable].
  - intros table catalog schema.
    destruct (namespace_cases cfg catalog schema)
      as [Hg | (c & s & Hc & Hs & Nc & Ns & _)].
    + unfold get_table_schema. rewrite Hg. apply reports_fault_offline.
    + rewrite (get_table_schema_guarded eng cfg table catalog schema c s Hc Hs Nc Ns).
      rewrite Hc, Hs.
      apply (guarded_reports_fault eng cfg _ _ _ _ _
               (fun error => schema_error error (Some c) (Some s) table));
        [exact Hclient | apply fetchall_ok; exact Hclient
         | apply schema_loop_reportable].
  - intros catalog schema.
    destruct (namespace_cases cfg catalog schema)
      as [Hg | (c & s & Hc & Hs & Nc & Ns & _)].
    + unfold list_tables. rewrite Hg. apply reports_fault_offline.
    + rewrite (list_tables_guarded eng cfg catalog schema c s Hc Hs Nc Ns).
      rewrite Hc, Hs.
      apply (guarded_reports_fault eng cfg _ _ _ _ _
               (fun error => tables_error error (Some c) (Some s)));
        [exact Hclient | apply fetchall_ok; exact Hclient
         | apply tables_loop_reportable].
Qed.

Lemma client_fault_is_reported_witness :
  snd (execute_sql_query (failing_fetch table_not_found) full_config
         "SELECT * FROM main.default.missing" 1000 []) =
  inr [("error", VStr (exn_msg table_not_found));
       ("query", VStr "SELECT * FROM main.default.missing")].
Proof.
  destruct (proj1 (client_fault_is_reported (failing_fetch table_not_found)
                     full_config []
                     (failing_fetch_pep249 table_not_found eq_refl))
              "SELECT * FROM main.default.missing" 1000%Z)
    as (evs & d & Hrun & Hreport).
  rewrite Hrun. cbn [snd]. f_equal.
  apply (Hreport
           [(SqlConnect "adb-1.azuredatabricks.net" "/sql/1.0/warehouses/w" "dapi",
             Done);
            (ConnectionCursor, Done);
            (CursorExecute "SELECT * FROM main.default.missing", Executed None)]
           (CursorFetchmany 1000)).
  cbn in Hrun. inversion Hrun. reflexivity.
Defined.

Lemma connection_refused eng cfg t :
  truthy_opt (DATABRICKS_HOST cfg) = false \/
  truthy_opt (DATABRICKS_TOKEN cfg) = false \/
  truthy_opt (DATABRICKS_HTTP_PATH cfg) = false ->
  get_databricks_connection eng cfg t =
    (t, inl (mkExn ValueError missing_connection_settings)).
Proof.
  intros H.
  destruct (get_databricks_connection_cases eng cfg t)
    as [[_ Hr] | (host & token & http_path & Hh & Hk & Hp & Nh & Nk & Np & _)].
  - exact Hr.
  - rewrite Hh, Hk, Hp in H. unfold truthy_opt in H. cbn [of_opt truthy] in H.
    apply String.eqb_neq in Nh, Nk, Np. rewrite Nh, Nk, Np in H.
    destruct H as [H | [H | H]]; discriminate.
Qed.

(** X4. With the host, the token or the HTTP path unset or empty, the
    [ValueError] of the connection factory does not leave the tools: each
    returns an ErrorResult whose message is the factory's, with the echo of
    the request, and the client is not called at all. *)
Theorem missing_settings_are_reported_by_tools
    (eng : Engine) (cfg : Config) (t : Transcript) :
  truthy_opt (DATABRICKS_HOST cfg) = false \/
  truthy_opt (DATABRICKS_TOKEN cfg) = false \/
  truthy_opt (DATABRICKS_HTTP_PATH cfg) = false ->
  (forall query max_rows,
      execute_sql_query eng cfg query max_rows t =
        (t, inr [("error", VStr missing_connection_settings);
                 ("query", VStr query)])) /\
  (forall table catalog schema c s,
      py_or catalog (DATABRICKS_CATALOG cfg) = Some c ->
      py_or schema (DATABRICKS_SCHEMA cfg) = Some s ->
      c <> "" -> s <> "" ->
      get_table_schema eng cfg table catalog schema t =
        (t, inr [("error", VStr missing_connection_settings);
                 ("catalog", VStr c); ("schema", VStr s);
                 ("table", VStr table)])) /\
  (forall catalog schema c s,
      py_or catalog (DATABRICKS_CATALOG cfg) = Some c ->
      py_or schema (DATABRICKS_SCHEMA cfg) = Some s ->
      c <> "" -> s <> "" ->
      list_tables eng cfg catalog schema t =
        (t, inr [("error", VStr missing_connection_settings);
                 ("catalog", VStr c); ("schema", VStr s)])).
Proof.
  intros H. pose proof (connection_refused eng cfg t H) as Hr.
  split; [| split].
  - intros query max_rows. rewrite execute_sql_query_guarded.
    unfold try_except, session. unfold bind at 1. rewrite Hr. reflexivity.
  - intros table catalog schema c s Hc Hs Nc Ns.
    rewrite (get_table_schema_guarded eng cfg table catalog schema c s Hc Hs Nc Ns).
    unfold try_except, session. unfold bind at 1. rewrite Hr. reflexivity.
  - intros catalog schema c s Hc Hs Nc Ns.
    rewrite (list_tables_guarded eng cfg catalog schema c s Hc Hs Nc Ns).
    unfold try_except, session. unfold bind at 1. rewrite Hr. reflexivity.
Qed.

Lemma missing_settings_are_reported_by_tools_witness :
  execute_sql_query (scripted None []) no_token "SELECT 1" 10 [] =
    ([], inr [("error", VStr missing_connection_settings);
              ("query", VStr "SELECT 1")]) /\
  get_table_schema (scripted None []) no_token "users" None (Some "sales") [] =
    ([], inr [("error", VStr missing_connection_settings);
              ("catalog", VStr "main"); ("schema", VStr "sales");
              ("table", VStr "users")]) /\
  list_tables (scripted None []) no_token None None [] =
    ([], inr [("error", VStr missing_connection_settings);
              ("catalog", VStr "main"); ("schema", VStr "default")]).
Proof.
  destruct (missing_settings_are_reported_by_tools (scripted None []) no_token [])
    as (Hq & Hs & Hl).
  - right. left. reflexivity.
  - split; [apply Hq |]. split.
    + apply Hs; try reflexivity; discriminate.
    + apply Hl; try reflexivity; discriminate.
Defined.

(** ** What the successful tools return *)

Lemma table_row_ok row v :
  table_row row = inr v -> v = table_of row /\ (2 <= List.length row)%nat.
Proof.
  unfold table_row, table_of, getitem, rbind.
  destruct row as [| v0 [| v1 [| v2 rest]]]; cbn; try discriminate;
    intros H; inversion H; split; try reflexivity; lia.
Qed.

Lemma tables_loop_ok rows : forall acc tables,
  tables_loop rows acc = inr tables ->
  tables = (acc ++ map table_of rows)%list /\
  Forall (fun row => (2 <= List.length row)%nat) rows.
Proof.
  induction rows as [| row rest IH]; intros acc tables H; cbn [tables_loop] in H.
  - inversion H. rewrite app_nil_r. split; [reflexivity | constructor].
  - unfold rbind in H. destruct (table_row row) as [e | v] eqn:Hrow;
      [discriminate |].
    apply table_row_ok in Hrow. destruct Hrow as [-> Hlen].
    apply IH in H. destruct H as [-> Hall].
    split; [| constructor; assumption].
    rewrite <- app_assoc. reflexivity.
Qed.

Lemma offline_is_error_schema eng cfg table catalog schema t t' d :
  get_table_schema eng cfg table catalog schema t = (t', inr d) ->
  is_ErrorResult d = false ->
  exists c s,
    py_or catalog (DATABRICKS_CATALOG cfg) = Some c /\
    py_or schema (DATABRICKS_SCHEMA cfg) = Some s /\
    c <> "" /\ s <> "".
Proof.
  intros H Hd.
  destruct (namespace_cases cfg catalog schema)
    as [Hg | (c & s & Hc & Hs & Nc & Ns & _)].
  - unfold get_table_schema in H. rewrite Hg in H.
    apply ret_ok in H. destruct H as [-> _]. discriminate.
  - exists c, s. repeat split; assumption.
Qed.

Lemma offline_is_error_tables eng cfg catalog schema t t' d :
  list_tables eng cfg catalog schema t = (t', inr d) ->
  is_ErrorResult d = false ->
  exists c s,
    py_or catalog (DATABRICKS_CATALOG cfg) = Some c /\
    py_or schema (DATABRICKS_SCHEMA cfg) = Some s /\
    c <> "" /\ s <> "".
Proof.
  intros H Hd.
  destruct (namespace_cases cfg catalog schema)
    as [Hg | (c & s & Hc & Hs & Nc & Ns & _)].
  - unfold list_tables in H. rewrite Hg in H.
    apply ret_ok in H. destruct H as [-> _]. discriminate.
  - exists c, s. repeat split; assumption.
Qed.

(** X5. A successful [list_tables] has executed [SHOW TABLES IN c.s] on the
    resolved, non-empty catalog [c] and schema [s], fetched all rows, and
    returns one table per fetched row, in order and without filtering:
    [name] is the second field, [is_temporary] the third, or [False] for a
    two-field row.  [table_count] is the number of fetched rows, the hint
    spells [c.s.<table_name>], and every fetched row had at least two
    fields. *)
Theorem list_tables_lists_every_row
    (eng : Engine) (cfg : Config) (catalog schema : option string)
    (t t' : Transcript) (d : Dict) :
  list_tables eng cfg catalog schema t = (t', inr d) ->
  is_ErrorResult d = false ->
  exists c s server_hostname http_path token description rows,
    py_or catalog (DATABRICKS_CATALOG cfg) = Some c /\
    py_or schema (DATABRICKS_SCHEMA cfg) = Some s /\
    c <> "" /\ s <> "" /\
    t' = (t ++ session_events server_hostname http_path token
                 ("SHOW TABLES IN " ++ c ++ "." ++ s) CursorFetchall
                 description rows)%list /\
    Forall (fun row => (2 <= List.length row)%nat) rows /\
    d = [("catalog", VStr c);
         ("schema", VStr s);
         ("tables", VList (map table_of rows));
         ("table_count", VInt (Z.of_nat (List.length rows)));
         ("usage_hint",
          VStr ("To query these tables, use the full name: " ++
                c ++ "." ++ s ++ ".<table_name>"))].
Proof.
  intros H Hd.
  destruct (offline_is_error_tables eng cfg catalog schema t t' d H Hd)
    as (c & s & Hc & Hs & Nc & Ns).
  apply list_tables_success in H; [| exact Hd].
  apply tables_try_ok in H.
  destruct H as (host & http_path & token & description & rows & tables &
                 _ & _ & _ & -> & Hloop & ->).
  apply tables_loop_ok in Hloop. destruct Hloop as [-> Hall].
  rewrite Hc, Hs. cbn [fmt_opt of_opt app].
  exists c, s, (str_replace host "https://" ""), http_path, token, description, rows.
  repeat (split; [assumption || reflexivity |]).
  rewrite length_map. reflexivity.
Qed.

Lemma list_tables_lists_every_row_witness :
  exists c s server_hostname http_path token description rows,
    py_or None (DATABRICKS_CATALOG with_defaults) = Some c /\
    py_or (Some "sales") (DATABRICKS_SCHEMA with_defaults) = Some s /\
    c <> "" /\ s <> "" /\
    fst (list_tables
           (scripted None [[VStr "sales"; VStr "orders"; VBool false];
                           [VStr "sales"; VStr "# staging"]])
           with_defaults None (Some "sales") []) =
      ([] ++ session_events server_hostname http_path token
               ("SHOW TABLES IN " ++ c ++ "." ++ s) CursorFetchall
               description rows)%list /\
    Forall (fun row => (2 <= List.length row)%nat) rows /\
    [("catalog", VStr "main");
     ("schema", VStr "sales");
     ("tables",
      VList [VDict [("name", VStr "orders"); ("is_temporary", VBool false)];
             VDict [("name", VStr "# staging"); ("is_temporary", VBool false)]]);
     ("table_count", VInt 2);
     ("usage_hint",
      VStr "To query these tables, use the full name: main.sales.<table_name>")] =
    [("catalog", VStr c);
     ("schema", VStr s);
     ("tables", VList (map table_of rows));
     ("table_count", VInt (Z.of_nat (List.length rows)));
     ("usage_hint",
      VStr ("To query these tables, use the full name: " ++
            c ++ "." ++ s ++ ".<table_name>"))].
Proof.
  apply (list_tables_lists_every_row
           (scripted None [[VStr "sales"; VStr "orders"; VBool false];
                           [VStr "sales"; VStr "# staging"]])
           with_defaults None (Some "sales") []).
  - reflexivity.
  - reflexivity.
Defined.

(** X6. A successful [get_table_schema] has executed
    [DESCRIBE TABLE c.s.table] on the resolved, non-empty catalog [c] and
    schema [s] and the table name as given, and returns them with
    [full_name] equal to [c + "." + s + "." + table], nothing normalised. *)
Theorem get_table_schema_names_the_table
    (eng : Engine) (cfg : Config) (table : string)
    (catalog schema : option string) (t t' : Transcript) (d : Dict) :
  get_table_schema eng cfg table catalog schema t = (t', inr d) ->
  is_ErrorResult d = false ->
  exists c s server_hostname http_path token description rows,
    py_or catalog (DATABRICKS_CATALOG cfg) = Some c /\
    py_or schema (DATABRICKS_SCHEMA cfg) = Some s /\
    c <> "" /\ s <> "" /\
    t' = (t ++ session_events server_hostname http_path token
                 ("DESCRIBE TABLE " ++ c ++ "." ++ s ++ "." ++ table)
                 CursorFetchall description rows)%list /\
    dict_get "catalog" d = Some (VStr c) /\
    dict_get "schema" d = Some (VStr s) /\
    dict_get "table" d = Some (VStr table) /\
    dict_get "full_name" d = Some (VStr (c ++ "." ++ s ++ "." ++ table)).
Proof.
  intros H Hd.
  destruct (offline_is_error_schema eng cfg table catalog schema t t' d H Hd)
    as (c & s & Hc & Hs & Nc & Ns).
  apply get_table_schema_success in H; [| exact Hd].
  apply schema_try_ok in H.
  destruct H as (host & http_path & token & description & rows & columns &
                 _ & _ & _ & -> & _ & ->).
  rewrite Hc, Hs. cbn [fmt_opt of_opt].
  exists c, s, (str_replace host "https://" ""), http_path, token, description, rows.
  repeat (split; [assumption || reflexivity |]). reflexivity.
Qed.

Lemma get_table_schema_names_the_table_witness :
  exists c s server_hostname http_path token description rows,
    py_or (Some "") (DATABRICKS_CATALOG with_defaults) = Some c /\
    py_or (Some "sales") (DATABRICKS_SCHEMA with_defaults) = Some s /\
    c <> "" /\ s <> "" /\
    fst (get_table_schema (scripted None [[VStr "id"; VStr "bigint"]])
           with_defaults "Orders " (Some "") (Some "sales") []) =
      ([] ++ session_events server_hostname http_path token
               ("DESCRIBE TABLE " ++ c ++ "." ++ s ++ "." ++ "Orders ")
               CursorFetchall description rows)%list /\
    dict_get "catalog"
      [("catalog", VStr "main"); ("schema", VStr "sales");
       ("table", VStr "Orders "); ("full_name", VStr "main.sales.Orders ");
       ("columns", VList [VDict [("name", VStr "id"); ("type", VStr "bigint");
                                 ("comment", VNone)]])] = Some (VStr c) /\
    dict_get "schema"
      [("catalog", VStr "main"); ("schema", VStr "sales");
       ("table", VStr "Orders "); ("full_name", VStr "main.sales.Orders ");
       ("columns", VList [VDict [("name", VStr "id"); ("type", VStr "bigint");
                                 ("comment", VNone)]])] = Some (VStr s) /\
    dict_get "table"
      [("catalog", VStr "main"); ("schema", VStr "sales");
       ("table", VStr "Orders "); ("full_name", VStr "main.sales.Orders ");
       ("columns", VList [VDict [("name", VStr "id"); ("type", VStr "bigint");
                                 ("comment", VNone)]])] = Some (VStr "Orders ") /\
    dict_get "full_name"
      [("catalog", VStr "main"); ("schema", VStr "sales");
       ("table", VStr "Orders "); ("full_name", VStr "main.sales.Orders ");
       ("columns", VList [VDict [("name", VStr "id"); ("type", VStr "bigint");
                                 ("comment", VNone)]])] =
      Some (VStr (c ++ "." ++ s ++ "." ++ "Orders ")).
Proof.
  apply (get_table_schema_names_the_table
           (scripted None [[VStr "id"; VStr "bigint"]])
           with_defaults "Orders " (Some "") (Some "sales") []).
  - reflexivity.
  - reflexivity.
Defined.

Lemma schema_row_readable row :
  (exists c, schema_row row = inr c) <-> readable_row row = true.
Proof.
  unfold schema_row, readable_row, getitem, rbind.
  destruct row as [| v0 [| v1 [| v2 rest]]]; cbn;
    try (split; [intros [c H]; discriminate | discriminate]);
    destruct (truthy v0) eqn:Hv;
    try (split; [reflexivity | intros _; eexists; reflexivity]);
    destruct v0; cbn;
    try (split; [intros [c H]; discriminate | discriminate]);
    destruct (prefix "#" s); cbn;
    try (split; [reflexivity | intros _; eexists; reflexivity]);
    split; try discriminate; intros [c H]; discriminate.
Qed.

Lemma schema_loop_readable rows : forall acc,
  (exists columns, schema_loop rows acc = inr columns) <->
  forallb readable_row rows = true.
Proof.
  induction rows as [| row rest IH]; intros acc; cbn [schema_loop forallb].
  - split; [reflexivity | intros _; eexists; reflexivity].
  - unfold rbind. rewrite andb_true_iff, <- schema_row_readable.
    destruct (schema_row row) as [e | [c |]].
    + split; [intros [columns H]; discriminate | intros [[c H] _]; discriminate].
    + rewrite (IH (acc ++ [c])%list). split; [| tauto].
      intros H. split; [eexists; reflexivity | exact H].
    + rewrite (IH acc). split; [| tauto].
      intros H. split; [eexists; reflexivity | exact H].
Qed.

Lemma kept_row_is_named row :
  readable_row row = true -> is_column row = true ->
  named_column (column_of row) = true.
Proof.
  unfold readable_row, is_column, falsy_name, starts_with_hash, named_column,
    column_of.
  destruct row as [| v0 rest]; [discriminate |]. cbn [nth].
  destruct (truthy v0) eqn:Hv; [| discriminate].
  destruct v0; try discriminate. cbn [truthy] in Hv.
  intros _ H. cbn in H |- *. rewrite Hv. exact H.
Qed.

(** X7. The row loop of [get_table_schema] goes through exactly when every
    fetched row is readable (it has a first field; a truthy first field is a
    string; a row that is kept has a second field).  So after a successful
    call every fetched row was readable, every returned column has a name
    that is a non-empty string not starting with ['#'], and there are no
    more columns than fetched rows. *)
Theorem schema_columns_are_named :
  (forall rows,
      (exists columns, schema_loop rows [] = inr columns) <->
      forallb readable_row rows = true) /\
  (forall eng cfg table catalog schema t t' d,
      get_table_schema eng cfg table catalog schema t = (t', inr d) ->
      is_ErrorResult d = false ->
      exists rows columns,
        last_fetch t' = Some (CursorFetchall, rows) /\
        dict_get "columns" d = Some (VList columns) /\
        forallb readable_row rows = true /\
        forallb named_column columns = true /\
        (List.length columns <= List.length rows)%nat).
Proof.
  split; [intros rows; apply schema_loop_readable |].
  intros eng cfg table catalog schema t t' d H Hd.
  apply get_table_schema_success in H; [| exact Hd].
  apply schema_try_ok in H.
  destruct H as (host & http_path & token & description & rows & columns &
                 _ & _ & _ & -> & Hloop & ->).
  assert (Hread : forallb readable_row rows = true).
  { apply (schema_loop_readable rows []). exists columns. exact Hloop. }
  apply schema_loop_ok in Hloop. cbn [app] in Hloop. subst columns.
  exists rows, (map column_of (filter is_column rows)).
  split; [rewrite last_fetch_app; reflexivity |].
  split; [reflexivity |]. split; [exact Hread |]. split.
  - apply forallb_forall. intros column Hin. apply in_map_iff in Hin.
    destruct Hin as (row & <- & Hin). apply filter_In in Hin.
    destruct Hin as [Hin Hk]. apply kept_row_is_named; [| exact Hk].
    rewrite forallb_forall in Hread. apply Hread. exact Hin.
  - rewrite length_map. apply filter_length_le.
Qed.

Lemma schema_columns_are_named_witness :
  exists rows columns,
    last_fetch
      (fst (get_table_schema
              (scripted None [[VStr "id"; VStr "bigint"; VStr "key"];
                              [VNone];
                              [VStr "# Partition Information"]])
              with_defaults "orders" None None [])) =
      Some (CursorFetchall, rows) /\
    dict_get "columns"
      [("catalog", VStr "main"); ("schema", VStr "default");
       ("table", VStr "orders"); ("full_name", VStr "main.default.orders");
       ("columns", VList [VDict [("name", VStr "id"); ("type", VStr "bigint");
                                 ("comment", VStr "key")]])] =
      Some (VList columns) /\
    forallb readable_row rows = true /\
    forallb named_column columns = true /\
    (List.length columns <= List.length rows)%nat.
Proof.
  apply (proj2 schema_columns_are_named
           (scripted None [[VStr "id"; VStr "bigint"; VStr "key"];
                           [VNone];
                           [VStr "# Partition Information"]])
           with_defaults "orders" None None []).
  - reflexivity.
  - reflexivity.
Defined.

(** ** Resolution of catalog and schema *)

Lemma get_databricks_connection_same eng cfg cfg' :
  same_connection cfg cfg' ->
  get_databricks_connection eng cfg = get_databricks_connection eng cfg'.
Proof.
  intros (Hh & Hk & Hp). unfold get_databricks_connection.
  rewrite Hh, Hk, Hp. reflexivity.
Qed.

Lemma py_or_given c default : c <> "" -> py_or (Some c) default = Some c.
Proof.
  intros N. unfold py_or, truthy_opt. cbn [of_opt truthy].
  apply String.eqb_neq in N. rewrite N. reflexivity.
Qed.

(** X8. A non-empty catalog or schema argument is used as given: with both
    passed, [get_table_schema] and [list_tables] do the same on any two
    deployments that share host, token and HTTP path, whatever their
    default catalog and schema; [execute_sql_query] never looks at the
    defaults. *)
Theorem namespace_arguments_override_defaults
    (eng : Engine) (cfg cfg' : Config) (t : Transcript) :
  same_connection cfg cfg' ->
  (forall table c s, c <> "" -> s <> "" ->
      get_table_schema eng cfg table (Some c) (Some s) t =
      get_table_schema eng cfg' table (Some c) (Some s) t) /\
  (forall c s, c <> "" -> s <> "" ->
      list_tables eng cfg (Some c) (Some s) t =
      list_tables eng cfg' (Some c) (Some s) t) /\
  (forall query max_rows,
      execute_sql_query eng cfg query max_rows t =
      execute_sql_query eng cfg' query max_rows t).
Proof.
  intros Hsame. pose proof (get_databricks_connection_same eng cfg cfg' Hsame) as Hc.
  split; [| split].
  - intros table c s Nc Ns. unfold get_table_schema.
    rewrite !(py_or_given c), !(py_or_given s) by assumption.
    unfold schema_try. rewrite Hc. reflexivity.
  - intros c s Nc Ns. unfold list_tables.
    rewrite !(py_or_given c), !(py_or_given s) by assumption.
    unfold tables_try. rewrite Hc. reflexivity.
  - intros query max_rows. unfold execute_sql_query, query_try.
    rewrite Hc. reflexivity.
Qed.

Lemma namespace_arguments_override_defaults_witness :
  get_table_schema (scripted None [[VStr "id"; VStr "bigint"]]) with_defaults
    "orders" (Some "dev") (Some "sales") [] =
  get_table_schema (scripted None [[VStr "id"; VStr "bigint"]]) full_config
    "orders" (Some "dev") (Some "sales") [].
Proof.
  apply (proj1 (namespace_arguments_override_defaults
                  (scripted None [[VStr "id"; VStr "bigint"]])
                  with_defaults full_config []
                  (conj eq_refl (conj eq_refl eq_refl)))); discriminate.
Defined.

(** X9. An empty-string catalog or schema argument counts as no argument,
    and no argument means the configured default: passing [""], passing
    [None] and passing the value of [DATABRICKS_CATALOG] (or
    [DATABRICKS_SCHEMA]) give the same run of [get_table_schema] and of
    [list_tables]. *)
Theorem empty_argument_means_default
    (eng : Engine) (cfg : Config) (table : string) (other : option string)
    (t : Transcript) :
  (get_table_schema eng cfg table (Some "") other t =
     get_table_schema eng cfg table None other t /\
   get_table_schema eng cfg table None other t =
     get_table_schema eng cfg table (DATABRICKS_CATALOG cfg) other t) /\
  (get_table_schema eng cfg table other (Some "") t =
     get_table_schema eng cfg table other None t /\
   get_table_schema eng cfg table other None t =
     get_table_schema eng cfg table other (DATABRICKS_SCHEMA cfg) t) /\
  (list_tables eng cfg (Some "") other t = list_tables eng cfg None other t /\
   list_tables eng cfg None other t =
     list_tables eng cfg (DATABRICKS_CATALOG cfg) other t) /\
  (list_tables eng cfg other (Some "") t = list_tables eng cfg other None t /\
   list_tables eng cfg other None t =
     list_tables eng cfg other (DATABRICKS_SCHEMA cfg) t).
Proof.
  assert (Hself : forall o, py_or o o = o).
  { intros o. unfold py_or. destruct (truthy_opt o); reflexivity. }
  unfold get_table_schema, list_tables.
  change (py_or (Some "") ?d) with d.
  change (py_or None ?d) with d.
  rewrite !Hself. repeat split.
Qed.

(** ** The row mappings of [execute_sql_query] *)

Lemma dict_get_set_same k v d : dict_get k (dict_set k v d) = Some v.
Proof.
  induction d as [| [k' v'] rest IH]; cbn.
  - rewrite String.eqb_refl. reflexivity.
  - destruct (k' =? k) eqn:Hk; cbn; rewrite Hk; [reflexivity | exact IH].
Qed.

Lemma dict_get_set_other k k' v d :
  k <> k' -> dict_get k' (dict_set k v d) = dict_get k' d.
Proof.
  intros N. induction d as [| [k0 v0] rest IH]; cbn.
  - apply String.eqb_neq in N. rewrite N. reflexivity.
  - destruct (k0 =? k) eqn:Hk; cbn.
    + apply String.eqb_eq in Hk. subst k0.
      apply String.eqb_neq in N. rewrite N. reflexivity.
    + destruct (k0 =? k'); [reflexivity | exact IH].
Qed.

Lemma dict_set_fresh k v d :
  ~ In k (keys d) -> dict_set k v d = (d ++ [(k, v)])%list.
Proof.
  induction d as [| [k' v'] rest IH]; cbn; intros N.
  - reflexivity.
  - destruct (String.eqb_spec k' k) as [-> | Hk].
    + exfalso. apply N. left. reflexivity.
    + rewrite IH; [reflexivity |]. intros Hin. apply N. right. exact Hin.
Qed.

Lemma getitem_ok row i v :
  getitem row i = inr v -> nth_error row i = Some v.
Proof.
  unfold getitem. destruct (nth_error row i); intros H; inversion H; reflexivity.
Qed.

Lemma skipn_cons {A : Type} (l : list A) : forall i v,
  nth_error l i = Some v -> skipn i l = v :: skipn (S i) l.
Proof.
  induction l as [| a l IH]; intros [| i] v H; cbn in H; try discriminate.
  - inversion H. reflexivity.
  - cbn [skipn]. rewrite (IH i v H). reflexivity.
Qed.

(** Every column is read, at its own position. *)
Lemma fill_row_length row columns : forall i acc row_dict,
  fill_row row i columns acc = inr row_dict ->
  columns = [] \/ (i + List.length columns <= List.length row)%nat.
Proof.
  induction columns as [| col rest IH]; intros i acc row_dict H.
  - left. reflexivity.
  - right. cbn [fill_row] in H. unfold rbind in H.
    destruct (getitem row i) as [e | v] eqn:Hget; [discriminate |].
    apply getitem_ok in Hget.
    assert (Hi : (i < List.length row)%nat).
    { apply nth_error_Some. rewrite Hget. discriminate. }
    apply IH in H. destruct H as [-> | H]; cbn [List.length]; lia.
Qed.

(** With distinct columns the mapping is the zip of columns and cells. *)
Lemma fill_row_zip row columns : forall i acc row_dict,
  NoDup columns ->
  (forall col, In col columns -> ~ In col (keys acc)) ->
  fill_row row i columns acc = inr row_dict ->
  row_dict = (acc ++ combine columns (skipn i row))%list.
Proof.
  induction columns as [| col rest IH]; intros i acc row_dict Hnd Hfresh H;
    cbn [fill_row] in H.
  - inversion H. cbn. rewrite app_nil_r. reflexivity.
  - unfold rbind in H.
    destruct (getitem row i) as [e | v] eqn:Hget; [discriminate |].
    apply getitem_ok in Hget. inversion Hnd as [| ? ? Hnotin Hnd']. subst.
    rewrite dict_set_fresh in H by (apply Hfresh; left; reflexivity).
    apply IH in H; [| exact Hnd' |].
    + rewrite H, <- app_assoc, (skipn_cons row i v Hget). reflexivity.
    + intros c Hc. unfold keys. rewrite map_app, in_app_iff. cbn.
      intros [Hin | [-> | []]].
      * apply (Hfresh c); [right; exact Hc | exact Hin].
      * apply Hnotin. exact Hc.
Qed.

(** Whatever the columns, an entry holds the cell at the last position of
    its column. *)
Lemma fill_row_last row columns : forall i acc row_dict,
  fill_row row i columns acc = inr row_dict ->
  forall col,
    dict_get col row_dict =
    match last_position col columns i with
    | Some j => nth_error row j
    | None => dict_get col acc
    end.
Proof.
  induction columns as [| c rest IH]; intros i acc row_dict H col;
    cbn [fill_row last_position] in *.
  - inversion H. reflexivity.
  - unfold rbind in H.
    destruct (getitem row i) as [e | v] eqn:Hget; [discriminate |].
    apply getitem_ok in Hget. rewrite (IH _ _ _ H col).
    destruct (last_position col rest (S i)); [reflexivity |].
    destruct (String.eqb_spec c col) as [-> | N].
    + rewrite dict_get_set_same. symmetry. exact Hget.
    + apply dict_get_set_other. exact N.
Qed.

Lemma query_loop_rows columns results : forall acc rows,
  query_loop columns results acc = inr rows ->
  exists dicts,
    rows = (acc ++ map VDict dicts)%list /\
    Forall2 (fun row row_dict => fill_row row 0 columns [] = inr row_dict)
            results dicts.
Proof.
  induction results as [| row rest IH]; intros acc rows H; cbn [query_loop] in H.
  - inversion H. exists []. rewrite app_nil_r. split; [reflexivity | constructor].
  - unfold rbind in H.
    destruct (fill_row row 0 columns []) as [e | row_dict] eqn:Hrow;
      [discriminate |].
    apply IH in H. destruct H as (dicts & -> & Hall).
    exists (row_dict :: dicts). split.
    + rewrite <- app_assoc. reflexivity.
    + constructor; assumption.
Qed.

(** What a successful [execute_sql_query] made of each fetched row. *)
Lemma execute_sql_query_rows eng cfg query max_rows t t' d :
  execute_sql_query eng cfg query max_rows t = (t', inr d) ->
  is_ErrorResult d = false ->
  exists description fetched dicts,
    last_description t' = Some description /\
    last_fetch t' = Some (CursorFetchmany max_rows, fetched) /\
    dict_get "columns" d =
      Some (VList (map VStr (column_names description))) /\
    dict_get "rows" d = Some (VList (map VDict dicts)) /\
    Forall2 (fun row row_dict =>
               fill_row row 0 (column_names description) [] = inr row_dict)
            fetched dicts.
Proof.
  intros H Hd. apply execute_sql_query_success in H; [| exact Hd].
  apply query_try_ok in H.
  destruct H as (host & path & token & desc & fetched & rows & pre &
                 _ & _ & _ & _ & -> & Hloop & ->).
  apply query_loop_rows in Hloop. destruct Hloop as (dicts & -> & Hall).
  exists desc, fetched, dicts.
  split; [rewrite last_description_app; reflexivity |].
  split; [rewrite last_fetch_app; reflexivity |].
  split; [reflexivity |]. split; [reflexivity | exact Hall].
Qed.

(** X10. After a successful [execute_sql_query] every fetched row had at
    least as many cells as the statement has columns, and when the column
    names are distinct the returned ["rows"] are the fetched rows, in
    order, each zipped with the column names (cells beyond the last column
    are left out). *)
Theorem rows_are_zipped_with_columns
    (eng : Engine) (cfg : Config) (query : string) (max_rows : Z)
    (t t' : Transcript) (d : Dict) :
  execute_sql_query eng cfg query max_rows t = (t', inr d) ->
  is_ErrorResult d = false ->
  exists description fetched columns,
    last_description t' = Some description /\
    last_fetch t' = Some (CursorFetchmany max_rows, fetched) /\
    columns = match description with
              | Some entries => map cd_name entries
              | None => []
              end /\
    dict_get "columns" d = Some (VList (map VStr columns)) /\
    Forall (fun row => (List.length columns <= List.length row)%nat) fetched /\
    (NoDup columns ->
     dict_get "rows" d = Some (VList (map (zip_row columns) fetched))).
Proof.
  intros H Hd.
  destruct (execute_sql_query_rows eng cfg query max_rows t t' d H Hd)
    as (desc & fetched & dicts & Hdesc & Hfetch & Hcols & Hrows & Hall).
  assert (Hnames : column_names desc =
                   match desc with
                   | Some entries => map cd_name entries
                   | None => []
                   end).
  { destruct desc as [[| entry entries] |]; reflexivity. }
  rewrite Hnames in *.
  exists desc, fetched. eexists.
  split; [exact Hdesc |]. split; [exact Hfetch |]. split; [reflexivity |].
  split; [exact Hcols |]. split.
  - clear - Hall. induction Hall as [| row row_dict rest dicts' Hrow _ IH];
      [constructor |].
    constructor; [| exact IH].
    apply fill_row_length in Hrow. destruct Hrow as [-> | Hlen]; cbn; lia.
  - intros Hnd. rewrite Hrows. do 2 f_equal.
    clear - Hall Hnd. induction Hall as [| row row_dict rest dicts' Hrow _ IH];
      [reflexivity |].
    cbn [map]. rewrite IH. f_equal. unfold zip_row. f_equal.
    apply fill_row_zip in Hrow; [exact Hrow | exact Hnd |].
    intros col _ [].
Qed.

Lemma rows_are_zipped_with_columns_witness :
  exists description fetched columns,
    last_description
      (fst (execute_sql_query
              (scripted (Some [text_column "id"; text_column "name"])
                 [[VInt 1; VStr "a"; VStr "extra"]; [VInt 2; VStr "b"]])
              full_config "SELECT * FROM main.default.t" 10 [])) =
      Some description /\
    last_fetch
      (fst (execute_sql_query
              (scripted (Some [text_column "id"; text_column "name"])
                 [[VInt 1; VStr "a"; VStr "extra"]; [VInt 2; VStr "b"]])
              full_config "SELECT * FROM main.default.t" 10 [])) =
      Some (CursorFetchmany 10, fetched) /\
    columns = match description with
              | Some entries => map cd_name entries
              | None => []
              end /\
    dict_get "columns"
      [("query", VStr "SELECT * FROM main.default.t");
       ("columns", VList [VStr "id"; VStr "name"]);
       ("rows", VList [VDict [("id", VInt 1); ("name", VStr "a")];
                       VDict [("id", VInt 2); ("name", VStr "b")]]);
       ("row_count", VInt 2);
       ("truncated", VBool false)] = Some (VList (map VStr columns)) /\
    Forall (fun row => (List.length columns <= List.length row)%nat) fetched /\
    (NoDup columns ->
     dict_get "rows"
       [("query", VStr "SELECT * FROM main.default.t");
        ("columns", VList [VStr "id"; VStr "name"]);
        ("rows", VList [VDict [("id", VInt 1); ("name", VStr "a")];
                        VDict [("id", VInt 2); ("name", VStr "b")]]);
        ("row_count", VInt 2);
        ("truncated", VBool false)] =
       Some (VList (map (zip_row columns) fetched))).
Proof.
  apply (rows_are_zipped_with_columns
           (scripted (Some [text_column "id"; text_column "name"])
              [[VInt 1; VStr "a"; VStr "extra"]; [VInt 2; VStr "b"]])
           full_config "SELECT * FROM main.default.t" 10 []).
  - reflexivity.
  - reflexivity.
Defined.

(** X11. After a successful [execute_sql_query] the returned ["rows"] match
    the fetched rows one to one, and in each mapping a column name leads to
    the cell at the last position where that name stands among the columns
    (of two columns with one name the later one wins); names that are not
    columns are not keys. *)
Theorem duplicate_columns_last_wins
    (eng : Engine) (cfg : Config) (query : string) (max_rows : Z)
    (t t' : Transcript) (d : Dict) :
  execute_sql_query eng cfg query max_rows t = (t', inr d) ->
  is_ErrorResult d = false ->
  exists description fetched dicts,
    last_description t' = Some description /\
    last_fetch t' = Some (CursorFetchmany max_rows, fetched) /\
    dict_get "rows" d = Some (VList (map VDict dicts)) /\
    Forall2
      (fun row row_dict =>
         forall col,
           dict_get col row_dict =
           match last_position col (column_names description) 0 with
           | Some j => nth_error row j
           | None => None
           end)
      fetched dicts.
Proof.
  intros H Hd.
  destruct (execute_sql_query_rows eng cfg query max_rows t t' d H Hd)
    as (desc & fetched & dicts & Hdesc & Hfetch & _ & Hrows & Hall).
  exists desc, fetched, dicts.
  split; [exact Hdesc |]. split; [exact Hfetch |]. split; [exact Hrows |].
  clear - Hall.
  induction Hall as [| row row_dict rest dicts' Hrow _ IH]; [constructor |].
  constructor; [| exact IH].
  intros col. apply (fill_row_last _ _ _ _ _ Hrow col).
Qed.

Lemma duplicate_columns_last_wins_witness :
  exists description fetched dicts,
    last_description
      (fst (execute_sql_query
              (scripted (Some [text_column "id"; text_column "n"; text_column "id"])
                 [[VInt 1; VStr "a"; VInt 7]])
              full_config "SELECT a.id, n, b.id FROM main.default.t" 10 [])) =
      Some description /\
    last_fetch
      (fst (execute_sql_query
              (scripted (Some [text_column "id"; text_column "n"; text_column "id"])
                 [[VInt 1; VStr "a"; VInt 7]])
              full_config "SELECT a.id, n, b.id FROM main.default.t" 10 [])) =
      Some (CursorFetchmany 10, fetched) /\
    dict_get "rows"
      [("query", VStr "SELECT a.id, n, b.id FROM main.default.t");
       ("columns", VList [VStr "id"; VStr "n"; VStr "id"]);
       ("rows", VList [VDict [("id", VInt 7); ("n", VStr "a")]]);
       ("row_count", VInt 1);
       ("truncated", VBool false)] = Some (VList (map VDict dicts)) /\
    Forall2
      (fun row row_dict =>
         forall col,
           dict_get col row_dict =
           match last_position col (column_names description) 0 with
           | Some j => nth_error row j
           | None => None
           end)
      fetched dicts.
Proof.
  apply (duplicate_columns_last_wins
           (scripted (Some [text_column "id"; text_column "n"; text_column "id"])
              [[VInt 1; VStr "a"; VInt 7]])
           full_config "SELECT a.id, n, b.id FROM main.default.t" 10 []).
  - reflexivity.
  - reflexivity.
Defined.

(** ** Faults of the row loops *)

Lemma schema_loop_fault rows : forall acc e,
  schema_loop rows acc = inl e ->
  forallb readable_row rows = false /\
  (e = index_error \/
   e = bytes_error \/
   exists v, truthy v = true /\ lacks_startswith v = true /\
             e = mkExn AttributeError
                   ("'" ++ type_name v ++ "' object has no attribute 'startswith'")).
Proof.
  intros acc e H. split.
  - destruct (forallb readable_row rows) eqn:Hread; [| reflexivity].
    apply (schema_loop_readable rows acc) in Hread.
    destruct Hread as [columns Hc]. rewrite Hc in H. discriminate.
  - apply (schema_loop_fault_kind rows acc e H).
Qed.

Lemma stops_after_fetch_offline operation fetch P t d :
  stops_after_fetch operation fetch P t (t, inr d).
Proof.
  exists [], d. rewrite app_nil_r. split; [reflexivity |].
  intros pre d0 r0 H. destruct pre; discriminate.
Qed.

(** X12. On a client whose faults derive from [Exception] and have a
    message: when a tool stops right after its fetch, a fetched row was too
    short or had a name that is not a string, and the tool says so in its
    ErrorResult.  For [list_tables] a row had fewer than two fields and the
    message is that of the [IndexError]; for [execute_sql_query] a row had
    fewer cells than the statement has columns, same message; for
    [get_table_schema] a row was not readable and the message is that of
    the [IndexError], that of the [TypeError] of [startswith] on a [bytes]
    name, or that of the [AttributeError] on a name of a type without
    [startswith]. *)
Theorem row_fault_is_reported (eng : Engine) (cfg : Config) (t : Transcript) :
  pep249_client eng ->
  (forall catalog schema,
      stops_after_fetch
        (show_statement (fmt_opt (py_or catalog (DATABRICKS_CATALOG cfg)))
                        (fmt_opt (py_or schema (DATABRICKS_SCHEMA cfg))))
        CursorFetchall
        (fun _ rows d =>
           existsb (fun row => (List.length row <? 2)%nat) rows = true /\
           d = [("error", VStr "tuple index out of range");
                ("catalog", of_opt (py_or catalog (DATABRICKS_CATALOG cfg)));
                ("schema", of_opt (py_or schema (DATABRICKS_SCHEMA cfg)))])
        t (list_tables eng cfg catalog schema t)) /\
  (forall query max_rows,
      stops_after_fetch query (CursorFetchmany max_rows)
        (fun description rows d =>
           existsb (fun row =>
                      (List.length row <?
                       List.length (column_names description))%nat) rows = true /\
           d = [("error", VStr "tuple index out of range");
                ("query", VStr query)])
        t (execute_sql_query eng cfg query max_rows t)) /\
  (forall table catalog schema,
      stops_after_fetch
        (describe_statement (fmt_opt (py_or catalog (DATABRICKS_CATALOG cfg)))
                            (fmt_opt (py_or schema (DATABRICKS_SCHEMA cfg)))
                            table)
        CursorFetchall
        (fun _ rows d =>
           forallb readable_row rows = false /\
           exists msg,
             d = [("error", VStr msg);
                  ("catalog", of_opt (py_or catalog (DATABRICKS_CATALOG cfg)));
                  ("schema", of_opt (py_or schema (DATABRICKS_SCHEMA cfg)));
                  ("table", VStr table)] /\
             (msg = "tuple index out of range" \/
              msg = "startswith first arg must be bytes or a tuple of bytes, not str" \/
              exists v,
                truthy v = true /\
                lacks_startswith v = true /\
                msg = "'" ++ type_name v ++
                      "' object has no attribute 'startswith'"))
        t (get_table_schema eng cfg table catalog schema t)).
Proof.
  intros Hclient. split; [| split].
  - intros catalog schema.
    destruct (namespace_cases cfg catalog schema)
      as [Hg | (c & s & Hc & Hs & Nc & Ns & _)].
    + unfold list_tables. rewrite Hg. apply stops_after_fetch_offline.
    + rewrite (list_tables_guarded eng cfg catalog schema c s Hc Hs Nc Ns).
      rewrite Hc, Hs.
      apply guarded_stops_after_fetch;
        [exact Hclient | apply fetchall_ok; exact Hclient
         | apply tables_loop_reportable |].
      intros _ rows e H. apply tables_loop_fault in H. destruct H as [-> H].
      split; [exact H | reflexivity].
  - intros query max_rows. rewrite execute_sql_query_guarded.
    apply guarded_stops_after_fetch;
      [exact Hclient | apply fetchmany_ok; exact Hclient
       | apply query_loop_reportable |].
    intros description rows e H. apply query_loop_fault in H.
    destruct H as [-> H]. split; [exact H | reflexivity].
  - intros table catalog schema.
    destruct (namespace_cases cfg catalog schema)
      as [Hg | (c & s & Hc & Hs & Nc & Ns & _)].
    + unfold get_table_schema. rewrite Hg. apply stops_after_fetch_offline.
    + rewrite (get_table_schema_guarded eng cfg table catalog schema c s Hc Hs Nc Ns).
      rewrite Hc, Hs.
      apply guarded_stops_after_fetch;
        [exact Hclient | apply fetchall_ok; exact Hclient
         | apply schema_loop_reportable |].
      intros _ rows e H. apply schema_loop_fault in H. destruct H as [Hread He].
      split; [exact Hread |]. exists (exn_msg e). split; [reflexivity |].
      destruct He as [-> | [-> | (v & Hv & Hl & ->)]].
      * left. reflexivity.
      * right. left. reflexivity.
      * right. right. exists v. repeat split; assumption.
Qed.

Lemma row_fault_is_reported_witness :
  (existsb (fun row => (List.length row <? 2)%nat) [[VStr "orders"]] = true /\
   snd (list_tables one_field_rows with_defaults None None []) =
     inr [("error", VStr "tuple index out of range");
          ("catalog", VStr "main"); ("schema", VStr "default")]) /\
  snd (get_table_schema
         (scripted None [[VStr "id"; VStr "bigint"]; [VBytes "raw"; VStr "binary"]])
         with_defaults "blobs" None None []) =
    inr [("error",
          VStr "startswith first arg must be bytes or a tuple of bytes, not str");
         ("catalog", VStr "main"); ("schema", VStr "default");
         ("table", VStr "blobs")].
Proof.
  split.
  - destruct (proj1 (row_fault_is_reported one_field_rows with_defaults []
                       (scripted_pep249 _ _))
                None None) as (evs & d & Hrun & Hstop).
    rewrite Hrun. cbn [snd].
    destruct (Hstop
                [(SqlConnect "adb-1.azuredatabricks.net" "/sql/1.0/warehouses/w"
                    "dapi", Done);
                 (ConnectionCursor, Done)]
                (Some [text_column "a"; text_column "b"])
                [[VStr "orders"]]) as [Hshort ->].
    + cbn in Hrun. inversion Hrun. reflexivity.
    + split; [exact Hshort | reflexivity].
  - destruct (proj2 (proj2 (row_fault_is_reported
                              (scripted None [[VStr "id"; VStr "bigint"];
                                              [VBytes "raw"; VStr "binary"]])
                              with_defaults [] (scripted_pep249 _ _)))
                "blobs" None None) as (evs & d & Hrun & Hstop).
    rewrite Hrun. cbn [snd].
    destruct (Hstop
                [(SqlConnect "adb-1.azuredatabricks.net" "/sql/1.0/warehouses/w"
                    "dapi", Done);
                 (ConnectionCursor, Done)]
                None
                [[VStr "id"; VStr "bigint"]; [VBytes "raw"; VStr "binary"]])
      as (_ & msg & -> & _).
    + cbn in Hrun. inversion Hrun. reflexivity.
    + cbn in Hrun. inversion Hrun. reflexivity.
Defined.

(** ** The workspace client *)

(** X13. With host and token set, [get_workspace_client] makes one call,
    the [WorkspaceClient] constructor, with the host exactly as configured
    (["https://"] is kept) and the token; it does not need the HTTP path,
    and what the constructor returns or raises is what the factory returns
    or raises. *)
Theorem workspace_client_keeps_host
    (eng : Engine) (cfg : Config) (t : Transcript) (host token : string) :
  DATABRICKS_HOST cfg = Some host ->
  DATABRICKS_TOKEN cfg = Some token ->
  host <> "" -> token <> "" ->
  calls (fst (get_workspace_client eng cfg t)) =
    (calls t ++ [NewWorkspaceClient host token])%list /\
  snd (get_workspace_client eng cfg t) = workspace_client eng t host token.
Proof.
  intros Hh Hk Nh Nk.
  unfold get_workspace_client, all_set, truthy_opt. cbn [forallb].
  rewrite Hh, Hk. cbn [of_opt truthy].
  apply String.eqb_neq in Nh, Nk. rewrite Nh, Nk. cbn [negb andb].
  unfold perform.
  destruct (workspace_client eng t host token) as [e | []]; cbn [fst snd];
    rewrite calls_app; split; reflexivity.
Qed.

Lemma workspace_client_keeps_host_witness :
  calls (fst (get_workspace_client (scripted None [])
                (mkConfig (Some "https://adb-1.azuredatabricks.net")
                          (Some "dapi") None None None) [])) =
    [NewWorkspaceClient "https://adb-1.azuredatabricks.net" "dapi"] /\
  snd (get_workspace_client (scripted None [])
         (mkConfig (Some "https://adb-1.azuredatabricks.net")
                   (Some "dapi") None None None) []) = inr tt.
Proof.
  apply (workspace_client_keeps_host (scripted None [])
           (mkConfig (Some "https://adb-1.azuredatabricks.net")
                     (Some "dapi") None None None) []
           "https://adb-1.azuredatabricks.net" "dapi");
    try reflexivity; discriminate.
Defined.
